(** * Slack notifier for AWS Cost Anomaly Detection: a shallow embedding

    The development follows [src/lambda/main.py].  Python objects that reach
    the Lambda (the event, the decoded message, the Slack payload) are
    values of one inductive type; the helpers of the module are Rocq
    functions with the names they have in the source; the handler runs in
    a small state-and-exception monad over the process's output streams
    and the requests it has sent. *)

From Stdlib Require Import ZArith QArith List String Ascii Bool Lia.
From Stdlib Require Import DecimalString.
From Stdlib Require Import Floats.SpecFloat.
Import ListNotations.

#[local] Set Warnings "-register-all".
Local Open Scope Z_scope.
Local Open Scope string_scope.

(** [++] joins strings; [+++] joins lists. *)
Local Infix "+++" := (@app _) (at level 60, right associativity).

(** ** Python objects *)

(** The objects [json.loads] can build, which are also the objects the
    module itself builds.  A [str] is held as its UTF-8 bytes.  A [float]
    is a binary64 number in the bit-level form of the standard library
    ([prec = 53], [emax = 1024]); [json.loads] accepts [NaN], [Infinity]
    and [-Infinity], so the special values are present.  A [dict] is an
    association list in insertion order; a key is looked up at its first
    binding. *)
Inductive value : Type :=
| PyNone
| PyBool (b : bool)
| PyInt (z : Z)
| PyFloat (f : spec_float)
| PyStr (s : string)
| PyList (l : list value)
| PyDict (d : list (string * value)).

(** The exceptions that can leave a function of the module. *)
Inductive exn : Type :=
| AttributeError
| TypeError
| OverflowError
| RuntimeError (msg : string)
| HTTPError (code : Z) (reason : string)
| URLError (reason : string)
| ValueError (msg : string)
| OtherError (name : string).

Module Py.

(** [bool(v)]: the truth value Python gives an object in [if], [or]
    and [not]. *)
Definition truthy (v : value) : bool :=
  match v with
  | PyNone => false
  | PyBool b => b
  | PyInt z => negb (Z.eqb z 0)
  | PyFloat (S754_zero _) => false
  | PyFloat _ => true
  | PyStr s => negb (s =? "")
  | PyList l => match l with [] => false | _ => true end
  | PyDict d => match d with [] => false | _ => true end
  end.

(** [a or b]. *)
Definition or_ (a b : value) : value := if truthy a then a else b.

(** [v is None]. *)
Definition is_none (v : value) : bool :=
  match v with PyNone => true | _ => false end.

(** Lookup in the association list of a [dict]. *)
Fixpoint lookup (d : list (string * value)) (k : string) : option value :=
  match d with
  | [] => None
  | (k', v) :: d' => if k' =? k then Some v else lookup d' k
  end.

(** [o.get(k, default)]: only a [dict] has the method. *)
Definition get_default (o : value) (k : string) (default : value)
  : exn + value :=
  match o with
  | PyDict d => inr (match lookup d k with Some v => v | None => default end)
  | _ => inl AttributeError
  end.

(** [o.get(k)]. *)
Definition get (o : value) (k : string) : exn + value :=
  get_default o k PyNone.

(** [isinstance(v, dict)] and [isinstance(v, list)]. *)
Definition is_dict (v : value) : bool :=
  match v with PyDict _ => true | _ => false end.
Definition is_list (v : value) : bool :=
  match v with PyList _ => true | _ => false end.

(** *** Numbers *)

(** What [isinstance(v, (int, float))] accepts.  [bool] is a subclass of
    [int]: [True] and [False] compare and format as 1 and 0. *)
Inductive number : Type :=
| NInt (z : Z)
| NFloat (f : spec_float).

Definition as_number (v : value) : option number :=
  match v with
  | PyBool b => Some (NInt (if b then 1 else 0))
  | PyInt z => Some (NInt z)
  | PyFloat f => Some (NFloat f)
  | _ => None
  end.

(** The real number a finite float stands for. *)
Definition float_value (f : spec_float) : option Q :=
  match f with
  | S754_zero _ => Some (inject_Z 0)
  | S754_finite s m e =>
      Some (Qmult (inject_Z (cond_Zopp s (Zpos m))) (Qpower (inject_Z 2) e))
  | S754_infinity _ | S754_nan => None
  end.

(** The extended value of a number: a rational, an infinity, or NaN. *)
Inductive xvalue : Type :=
| Finite (q : Q)
| PlusInf
| MinusInf
| NaN.

Definition number_value (x : number) : xvalue :=
  match x with
  | NInt z => Finite (inject_Z z)
  | NFloat (S754_infinity s) => if s then MinusInf else PlusInf
  | NFloat S754_nan => NaN
  | NFloat f =>
      match float_value f with Some q => Finite q | None => NaN end
  end.

(** [x > c] for an integer literal [c].  Python compares a float with an
    int exactly; every comparison with NaN is false. *)
Definition gt (x : number) (c : Z) : bool :=
  match number_value x with
  | Finite q => negb (Qle_bool q (inject_Z c))
  | PlusInf => true
  | MinusInf => false
  | NaN => false
  end.

(** [x <= c], used only to state properties. *)
Definition le (x : number) (c : Z) : bool :=
  match number_value x with
  | Finite q => Qle_bool q (inject_Z c)
  | PlusInf => false
  | MinusInf => true
  | NaN => false
  end.

(** *** Text *)

(** Decimal digits of an integer, as [str(int)] prints them. *)
Definition str_of_Z (z : Z) : string := NilZero.string_of_int (Z.to_int z).

(** Commas between groups of three digits, counted from the right. *)
Fixpoint group3_rev (ds : list ascii) : list ascii :=
  match ds with
  | a :: b :: c :: ((_ :: _) as rest) =>
      a :: b :: c :: ","%char :: group3_rev rest
  | _ => ds
  end.

Definition thousands (n : Z) : string :=
  string_of_list_ascii
    (rev (group3_rev (rev (list_ascii_of_string (str_of_Z n))))).

Definition two_digits (n : Z) : string :=
  if Z.ltb n 10 then "0" ++ str_of_Z n else str_of_Z n.

(** [round(m * 2^e * 100)] to the nearest integer, ties to even: the
    digits a correctly rounded [.2f] conversion prints. *)
Definition hundredths (m : positive) (e : Z) : Z :=
  let num := Zpos m * 100 in
  if Z.leb 0 e then num * 2 ^ e
  else
    let den := 2 ^ (- e) in
    let q := num / den in
    let r := num mod den in
    match Z.compare (2 * r) den with
    | Lt => q
    | Gt => q + 1
    | Eq => if Z.even q then q else q + 1
    end.

(** [format(f, ",.2f")] for a float. *)
Definition format_float_comma_2f (f : spec_float) : string :=
  match f with
  | S754_nan => "nan"
  | S754_infinity s => if s then "-inf" else "inf"
  | S754_zero s => if s then "-0.00" else "0.00"
  | S754_finite s m e =>
      let h := hundredths m e in
      (if s then "-" else "") ++ thousands (h / 100) ++ "."
        ++ two_digits (h mod 100)
  end.

(** [float(z)] for an int: the nearest binary64 number, ties to even;
    an int that rounds past the largest float does not convert. *)
Definition float_of_int (z : Z) : exn + spec_float :=
  match binary_normalize 53 1024 z 0 false with
  | S754_infinity _ => inl OverflowError
  | f => inr f
  end.

(** [format(x, ",.2f")]: an int is first converted to a float. *)
Definition format_comma_2f (x : number) : exn + string :=
  match x with
  | NFloat f => inr (format_float_comma_2f f)
  | NInt z =>
      match float_of_int z with
      | inl e => inl e
      | inr f => inr (format_float_comma_2f f)
      end
  end.

(** [sub in s] for a one-character [sub], and [s.split(sub, 1)[0]]. *)
Fixpoint contains_char (c : ascii) (s : string) : bool :=
  match s with
  | EmptyString => false
  | String a s' => if Ascii.eqb a c then true else contains_char c s'
  end.

Fixpoint before_char (c : ascii) (s : string) : string :=
  match s with
  | EmptyString => EmptyString
  | String a s' =>
      if Ascii.eqb a c then EmptyString else String a (before_char c s')
  end.

(** The characters [str.isspace] accepts, in UTF-8: U+0009..U+000D,
    U+001C..U+0020, U+0085, U+00A0, U+1680, U+2000..U+200A, U+2028,
    U+2029, U+202F, U+205F, U+3000. *)
Definition whitespace : list (list nat) :=
  ([ [9]; [10]; [11]; [12]; [13]; [28]; [29]; [30]; [31]; [32];
     [194; 133]; [194; 160]; [225; 154; 128];
     [226; 128; 128]; [226; 128; 129]; [226; 128; 130]; [226; 128; 131];
     [226; 128; 132]; [226; 128; 133]; [226; 128; 134]; [226; 128; 135];
     [226; 128; 136]; [226; 128; 137]; [226; 128; 138];
     [226; 128; 168]; [226; 128; 169]; [226; 128; 175];
     [226; 129; 159]; [227; 128; 128] ])%nat.

(** [drop_prefix p l]: [l] without its prefix [p], when it has it. *)
Fixpoint drop_prefix (p : list nat) (l : list ascii) : option (list ascii) :=
  match p, l with
  | [], _ => Some l
  | n :: p', a :: l' =>
      if Nat.eqb (nat_of_ascii a) n then drop_prefix p' l' else None
  | _ :: _, [] => None
  end.

(** [l] without one leading character of the list [ws], if it starts
    with one. *)
Fixpoint drop_one (ws : list (list nat)) (l : list ascii)
  : option (list ascii) :=
  match ws with
  | [] => None
  | p :: ws' =>
      match drop_prefix p l with
      | Some l' => Some l'
      | None => drop_one ws' l
      end
  end.

Fixpoint lstrip_fuel (ws : list (list nat)) (fuel : nat) (l : list ascii)
  : list ascii :=
  match fuel with
  | O => l
  | S fuel' =>
      match drop_one ws l with
      | Some l' => lstrip_fuel ws fuel' l'
      | None => l
      end
  end.

Definition lstrip_with (ws : list (list nat)) (l : list ascii) : list ascii :=
  lstrip_fuel ws (List.length l) l.

(** [s.strip()]: leading whitespace goes, then trailing whitespace, read
    from the end with each character's bytes reversed. *)
Definition strip (s : string) : string :=
  let l := lstrip_with whitespace (list_ascii_of_string s) in
  string_of_list_ascii
    (rev (lstrip_with (map (@rev nat) whitespace) (rev l))).

End Py.

(** ** The error monad of pure code that may raise *)

Definition raises (A : Type) : Type := (exn + A)%type.

Definition ret {A : Type} (a : A) : raises A := inr a.

Definition bind {A B : Type} (m : raises A) (k : A -> raises B) : raises B :=
  match m with
  | inl e => inl e
  | inr a => k a
  end.

Declare Scope raises_scope.
Delimit Scope raises_scope with raises.
Notation "x <- m ;; k" := (bind m (fun x => k))
  (at level 61, m at next level, right associativity) : raises_scope.

(** ** The module's pure helpers *)

(** [_get_severity_details] (main.py, lines 27-38).  The dictionary it
    returns has three fixed keys. *)
Record severity : Type := {
  color : string;
  emoji : string;
  label : string
}.

Definition UNKNOWN : severity :=
  {| color := "#78909C"; emoji := ":information_source:"; label := "UNKNOWN" |}.
Definition HIGH : severity :=
  {| color := "#C62828"; emoji := ":rotating_light:"; label := "HIGH" |}.
Definition MEDIUM : severity :=
  {| color := "#FFC107"; emoji := ":warning:"; label := "MEDIUM" |}.
Definition LOW : severity :=
  {| color := "#2196F3"; emoji := ":information_source:"; label := "LOW" |}.

Definition _get_severity_details (impact : option Py.number) : severity :=
  match impact with
  | None => UNKNOWN
  | Some x =>
      if Py.gt x 100 then HIGH
      else if Py.gt x 50 then MEDIUM
      else LOW
  end.

(** [_safe_get] (lines 41-50).  First the body of its [try]: the loop
    over the keys, where [cur.get(k)] raises on anything but a [dict]; then
    the function, where [except Exception] turns a raise into the
    default. *)
Fixpoint safe_get_try (cur : value) (path : list string) (default : value)
  : raises value :=
  match path with
  | [] => ret (if Py.is_none cur then default else cur)
  | k :: path' =>
      if Py.is_none cur then ret default
      else (next <- Py.get cur k ;; safe_get_try next path' default)%raises
  end.

Definition _safe_get (d : value) (path : list string) (default : value)
  : value :=
  match safe_get_try d path default with
  | inr v => v
  | inl _ => default
  end.

(** [_get_any] (lines 53-63). *)
Fixpoint _get_any (d : value) (paths : list (list string)) (default : value)
  : value :=
  match paths with
  | [] => default
  | p :: paths' =>
      let val := _safe_get d p PyNone in
      if Py.is_none val then _get_any d paths' default else val
  end.

(** [_format_date] (lines 66-74). *)
Definition _format_date (date_str : value) : value :=
  match date_str with
  | PyStr s =>
      if Py.contains_char "T" s then PyStr (Py.before_char "T" s)
      else date_str
  | _ => date_str
  end.

(** A line break, and the key paths the module looks fields up at. *)
Definition nl : string := String "010"%char EmptyString.

Definition id_paths : list (list string) := [["AnomalyId"]; ["anomalyId"]].
Definition total_paths : list (list string) :=
  [["Impact"; "TotalImpact"]; ["impact"; "totalImpact"]].
Definition pct_paths : list (list string) :=
  [["Impact"; "TotalImpactPercentage"]; ["impact"; "totalImpactPercentage"]].
Definition causes_paths : list (list string) :=
  [["RootCauses"]; ["rootCauses"]].
Definition default_console_url : string :=
  "https://console.aws.amazon.com/cost-management/home?#/anomaly-detection/anomalies".

Definition mrkdwn (text : string) : value :=
  PyDict [("type", PyStr "mrkdwn"); ("text", PyStr text)].

Section Rendering.

(** [repr] of a float, a list or a dict: the texts Python prints for the
    objects whose [str] is not spelled out below.  The module only
    interpolates them; nothing it does depends on how they look. *)
Variable repr_other : value -> string.

(** [str(v)], which is also what an f-string field [{v}] inserts.  Python
    refuses to print an int of more than 4300 digits; [json.loads] refuses
    to read one, so no decoded message holds such an int, and the
    embedding prints every int. *)
Definition str (v : value) : string :=
  match v with
  | PyStr s => s
  | PyNone => "None"
  | PyBool b => if b then "True" else "False"
  | PyInt z => Py.str_of_Z z
  | PyFloat _ | PyList _ | PyDict _ => repr_other v
  end.

(** [_get_account_info] (lines 77-93). *)
Definition _get_account_info (anomaly : value) : value * value :=
  let root_causes :=
    Py.or_ (_get_any anomaly causes_paths (PyList [])) (PyList []) in
  match root_causes with
  | PyList (first :: _) =>
      (* root_causes is truthy and a list; [first] is root_causes[0] *)
      let rc := Py.or_ first (PyDict []) in
      let account_id :=
        _get_any rc [["LinkedAccount"]; ["linkedAccount"]] PyNone in
      if negb (Py.truthy account_id) then (PyNone, PyNone)
      else
        let acct_name :=
          _get_any rc [["LinkedAccountName"]; ["linkedAccountName"]] PyNone in
        let clean_acct := Py.strip (str account_id) in
        (PyStr clean_acct, acct_name)
  | _ => (PyNone, PyNone)
  end.

(** The root-cause entry of the field grid, when there is one (lines
    141-162 of [_build_blocks_for_anomaly]; the lookup of the linked
    account there is not used). *)
Definition root_cause_fields (anomaly : value) : list value :=
  let root_causes :=
    Py.or_ (_get_any anomaly causes_paths (PyList [])) (PyList []) in
  match root_causes with
  | PyList (first :: _) =>
      let rc := Py.or_ first (PyDict []) in
      let service := _get_any rc [["Service"]; ["service"]] PyNone in
      let region := _get_any rc [["Region"]; ["region"]] PyNone in
      let usage := _get_any rc [["UsageType"]; ["usageType"]] PyNone in
      let rc_parts :=
        (if Py.truthy service then ["Service: " ++ str service] else [])
        +++ (if Py.truthy region then ["Region: " ++ str region] else [])
        +++ (if Py.truthy usage then ["Usage: " ++ str usage] else []) in
      match rc_parts with
      | [] => []
      | _ => [mrkdwn ("*Root cause*" ++ nl ++ String.concat " | " rc_parts)]
      end
  | _ => []
  end.

(** [_build_blocks_for_anomaly] (lines 96-218).  The two number formats
    are the only steps that can raise. *)
Definition _build_blocks_for_anomaly (anomaly : value) : raises (list value) :=
  (let impact_total := _get_any anomaly total_paths PyNone in
   let sev_details := _get_severity_details (Py.as_number impact_total) in
   let emoji := emoji sev_details in
   let label := label sev_details in
   impact_text <-
     match Py.as_number impact_total with
     | Some x => (s <- Py.format_comma_2f x ;; ret ("$" ++ s))
     | None => ret "n/a"
     end ;;
   let impact_pct := _get_any anomaly pct_paths PyNone in
   impact_pct_text <-
     match Py.as_number impact_pct with
     | Some x => (s <- Py.format_comma_2f x ;; ret (s ++ "%"))
     | None => ret "n/a"
     end ;;
   let start := _get_any anomaly [["AnomalyStartDate"]; ["anomalyStartDate"]] PyNone in
   let end_ := _get_any anomaly [["AnomalyEndDate"]; ["anomalyEndDate"]] PyNone in
   let start_fmt := _format_date start in
   let end_fmt := _format_date end_ in
   let window :=
     if Py.truthy (Py.or_ start end_)
     then [mrkdwn ("*Window*" ++ nl ++ str (Py.or_ start_fmt (PyStr "-"))
                     ++ " → " ++ str (Py.or_ end_fmt (PyStr "-")))]
     else [] in
   let anomaly_id := _get_any anomaly id_paths PyNone in
   let fields :=
     window
     +++ [mrkdwn ("*Estimated impact*" ++ nl ++ impact_text ++ " USD")]
     +++ [mrkdwn ("*Impact %*" ++ nl ++ impact_pct_text)]
     +++ root_cause_fields anomaly
     +++ (if Py.truthy anomaly_id
          then [mrkdwn ("*Anomaly ID*" ++ nl ++ str anomaly_id)]
          else []) in
   let header_title :=
     emoji ++ " AWS Cost Anomaly Detected: " ++ label ++ " " ++ emoji in
   let '(acct_id, acct_name) := _get_account_info anomaly in
   let detail_line :=
     if Py.truthy acct_name
     then PyStr (str acct_name ++ " (" ++ str acct_id ++ ")")
     else if Py.truthy acct_id then PyStr ("Account: " ++ str acct_id)
     else PyNone in
   let console_url :=
     _get_any anomaly [["anomalyDetailsLink"]; ["AnomalyDetailsLink"]]
       (PyStr default_console_url) in
   ret
     [ PyDict [("type", PyStr "header");
               ("text", PyDict [("type", PyStr "plain_text");
                                ("text", PyStr header_title);
                                ("emoji", PyBool true)])];
       PyDict ([("type", PyStr "section")]
               +++ (if Py.truthy detail_line
                    then [("text", PyDict [("type", PyStr "mrkdwn");
                                           ("text", detail_line)])]
                    else [])
               +++ [("fields", PyList fields)]);
       PyDict [("type", PyStr "actions");
               ("elements",
                PyList [PyDict [("type", PyStr "button");
                                ("text", PyDict [("type", PyStr "plain_text");
                                                 ("text", PyStr "Open in AWS Console")]);
                                ("url", console_url);
                                ("style", PyStr "primary")]])];
       PyDict [("type", PyStr "context");
               ("elements",
                PyList [mrkdwn "Sent by Cost Anomaly Detection → SNS → Lambda → Slack"])]
     ])%raises.

(** The payload built when the message is not taken for an anomaly
    (lines 235-240). *)
Definition fallback_payload (raw_text : value) : value :=
  PyDict
    [("blocks",
      PyList
        [ PyDict [("type", PyStr "header");
                  ("text",
                   PyDict [("type", PyStr "plain_text");
                           ("text", PyStr ":rotating_light: AWS Cost Anomaly Notification :rotating_light:");
                           ("emoji", PyBool true)])];
          PyDict [("type", PyStr "section");
                  ("text", PyDict [("type", PyStr "mrkdwn");
                                   ("text", PyStr ("```" ++ str raw_text ++ "```"))])]
        ])].

(** [_build_payload] (lines 221-240). *)
Definition _build_payload (anomaly : value) (raw_text : value)
  : raises value :=
  if Py.truthy anomaly && Py.truthy (_get_any anomaly id_paths PyNone)
  then
    (let impact := _get_any anomaly total_paths PyNone in
     let sev_details := _get_severity_details (Py.as_number impact) in
     blocks <- _build_blocks_for_anomaly anomaly ;;
     ret (PyDict [("attachments",
                   PyList [PyDict [("color", PyStr (color sev_details));
                                   ("blocks", PyList blocks)]])]))%raises
  else ret (fallback_payload raw_text).

End Rendering.

(** ** The process around the handler *)

(** A request handed to [urllib.request.urlopen].  [data] is the payload
    whose [json.dumps] text, in UTF-8, is the body; [timeout] is the
    argument of [urlopen]. *)
Record request : Type := {
  url : string;
  data : value;
  headers : list (string * string);
  method : string;
  timeout : Z
}.

(** What urllib does with a request.  [Request(...)] may refuse the URL
    with a [ValueError], before the [try] and before anything is sent.
    Otherwise [urlopen] and [resp.read()] complete, raise [HTTPError],
    raise [URLError], or raise anything else (a read that times out). *)
Inductive response : Type :=
| Delivered
| HttpFailure (code : Z) (reason : string)
| UrlFailure (reason : string)
| OtherFailure (name : string)
| Refused (msg : string).

(** The state of the process: its environment, the lines printed on
    standard error, the events printed on standard output ([print] of the
    event's [json.dumps] text), and the requests made so far. *)
Record world : Type := {
  environ : string -> option string;
  stdout : list value;
  stderr : list string;
  posts : list request
}.

Definition print_event (event : value) (w : world) : world :=
  {| environ := environ w; stdout := stdout w +++ [event];
     stderr := stderr w; posts := posts w |}.

Definition print_stderr (line : string) (w : world) : world :=
  {| environ := environ w; stdout := stdout w;
     stderr := stderr w +++ [line]; posts := posts w |}.

Definition record_post (req : request) (w : world) : world :=
  {| environ := environ w; stdout := stdout w;
     stderr := stderr w; posts := posts w +++ [req] |}.

(** Code with effects: a state transformer that returns or raises. *)
Definition proc (A : Type) : Type := world -> raises A * world.

Definition pure {A : Type} (a : A) : proc A := fun w => (inr a, w).

Definition raise {A : Type} (e : exn) : proc A := fun w => (inl e, w).

Definition lift {A : Type} (m : raises A) : proc A := fun w => (m, w).

Definition effect (f : world -> world) : proc unit := fun w => (inr tt, f w).

Definition pbind {A B : Type} (m : proc A) (k : A -> proc B) : proc B :=
  fun w =>
    match m w with
    | (inl e, w') => (inl e, w')
    | (inr a, w') => k a w'
    end.

Declare Scope proc_scope.
Delimit Scope proc_scope with proc.
Notation "x <- m ;; k" := (pbind m (fun x => k))
  (at level 61, m at next level, right associativity) : proc_scope.
Notation "m ;; k" := (pbind m (fun _ => k))
  (at level 61, right associativity) : proc_scope.

(** The request [_post_to_slack] builds. *)
Definition slack_request (webhook_url : string) (payload : value) : request :=
  {| url := webhook_url; data := payload;
     headers := [("Content-Type", "application/json")];
     method := "POST"; timeout := 10 |}.

Definition status_ok (delivered : nat) : value :=
  PyDict [("status", PyStr "ok"); ("delivered", PyInt (Z.of_nat delivered))].

Section Handler.

Variable repr_other : value -> string.

(** [json.loads] on a [str]: the object, or the exception raised. *)
Variable json_loads : string -> raises value.

(** urllib and the network: the answer to a request, given the requests
    made before it. *)
Variable urlopen : list request -> request -> response.

(** [json.loads(s)] for any object [s]: only text is decoded. *)
Definition loads (s : value) : raises value :=
  match s with
  | PyStr text => json_loads text
  | _ => inl TypeError
  end.

(** [_post_to_slack] (lines 8-24). *)
Definition _post_to_slack (webhook_url : string) (payload : value)
  : proc unit :=
  fun w =>
    let req := slack_request webhook_url payload in
    let w' := record_post req w in
    match urlopen (posts w) req with
    | Delivered => (inr tt, w')
    | HttpFailure code reason =>
        (inl (HTTPError code reason),
         print_stderr ("Slack webhook HTTPError: " ++ Py.str_of_Z code
                         ++ " " ++ reason) w')
    | UrlFailure reason =>
        (inl (URLError reason),
         print_stderr ("Slack webhook URLError: " ++ reason) w')
    | OtherFailure name => (inl (OtherError name), w')
    | Refused msg => (inl (ValueError msg), w)
    end.

(** The body of the [try] in the handler's loop (lines 259-269). *)
Definition parse_anomaly_try (msg_str : value) : raises value :=
  (parsed <- loads msg_str ;;
   if Py.is_dict parsed then
     by_title <- Py.get parsed "AnomalyId" ;;
     by_camel <- Py.get parsed "anomalyId" ;;
     if Py.truthy (Py.or_ by_title by_camel) then ret parsed
     else
       inner <- Py.get parsed "detail" ;;
       detail <- (if Py.is_dict inner
                  then Py.get_default parsed "detail" (PyDict [])
                  else ret (PyDict [])) ;;
       by_title' <- Py.get detail "AnomalyId" ;;
       by_camel' <- Py.get detail "anomalyId" ;;
       if Py.truthy (Py.or_ by_title' by_camel') then ret detail
       else ret PyNone
   else ret PyNone)%raises.

(** [anomaly_payload] after the [try]: [None] when anything was raised. *)
Definition parse_anomaly (msg_str : value) : value :=
  match parse_anomaly_try msg_str with
  | inr anomaly_payload => anomaly_payload
  | inl _ => PyNone
  end.

(** What the handler builds for one message. *)
Definition render_message (msg_str : value) : raises value :=
  _build_payload repr_other (parse_anomaly msg_str) msg_str.

(** One turn of the loop over the records, up to the POST (lines
    254-273). *)
Definition record_payload (record : value) : raises value :=
  (found <- Py.get record "Sns" ;;
   let sns := Py.or_ found (PyDict []) in
   msg_str <- Py.get_default sns "Message" (PyStr "") ;;
   render_message msg_str)%raises.

Definition process_record (webhook_url : string) (record : value)
  : proc unit :=
  (payload <- lift (record_payload record) ;;
   _post_to_slack webhook_url payload)%proc.

Fixpoint process_records (webhook_url : string) (records : list value)
  : proc unit :=
  match records with
  | [] => pure tt
  | record :: rest =>
      (process_record webhook_url record ;;
       process_records webhook_url rest)%proc
  end.

(** [handler] (lines 242-276).  When [records] is not a list it is
    truthy, since [or []] has replaced a falsy value: iterating a [str] or
    a [dict] yields a [str], which has no [get]; a number is not
    iterable. *)
Definition handler (event context : value) : proc value :=
  (effect (print_event event) ;;
   webhook_url <- (fun w => (inr (environ w "SLACK_WEBHOOK_URL"), w)) ;;
   match webhook_url with
   | None | Some EmptyString =>
       effect (print_stderr "Missing SLACK_WEBHOOK_URL environment variable") ;;
       raise (RuntimeError "SLACK_WEBHOOK_URL not set")
   | Some webhook_url =>
       found <- lift (Py.get event "Records") ;;
       let records := Py.or_ found (PyList []) in
       match records with
       | PyList items =>
           process_records webhook_url items ;;
           pure (status_ok (List.length items))
       | PyStr _ | PyDict _ => raise AttributeError
       | _ => raise TypeError
       end
   end)%proc.

End Handler.

(** ** A reference runtime

    The handler is parametric in [json.loads], in [repr] and in the
    network.  The functions below are the instances used to run it on
    concrete events.  [Json.loads] decodes as Python does, without the
    interpreter's limit on nesting depth, and refuses a lone surrogate
    escape, which has no UTF-8 form.
    [Repr.repr] prints as Python does, except that a character beyond
    ASCII is always kept as it is. *)

Module Json.

Definition quote : ascii := "034"%char.
Definition backslash : ascii := "092"%char.

(** The whitespace of JSON: space, tab, line feed, carriage return. *)
Definition is_ws (a : ascii) : bool :=
  let n := nat_of_ascii a in
  (Nat.eqb n 32 || Nat.eqb n 9 || Nat.eqb n 10 || Nat.eqb n 13)%bool.

Fixpoint skip_ws (l : list ascii) : list ascii :=
  match l with
  | a :: l' => if is_ws a then skip_ws l' else l
  | [] => []
  end.

Definition digit_of (a : ascii) : option Z :=
  let n := Z.of_nat (nat_of_ascii a) in
  if (Z.leb 48 n && Z.leb n 57)%bool then Some (n - 48) else None.

Definition hex_of (a : ascii) : option Z :=
  let n := Z.of_nat (nat_of_ascii a) in
  if (Z.leb 48 n && Z.leb n 57)%bool then Some (n - 48)
  else if (Z.leb 65 n && Z.leb n 70)%bool then Some (n - 55)
  else if (Z.leb 97 n && Z.leb n 102)%bool then Some (n - 87)
  else None.

(** A run of decimal digits: their value, their number, and the rest. *)
Fixpoint digits (l : list ascii) (acc : Z) (count : Z)
  : Z * Z * list ascii :=
  match l with
  | a :: l' =>
      match digit_of a with
      | Some d => digits l' (10 * acc + d) (count + 1)
      | None => (acc, count, l)
      end
  | [] => (acc, count, [])
  end.

Definition byte (n : Z) : ascii := ascii_of_nat (Z.to_nat n).

(** The UTF-8 bytes of a code point that is not a surrogate. *)
Definition utf8 (cp : Z) : list ascii :=
  if Z.ltb cp 128 then [byte cp]
  else if Z.ltb cp 2048 then [byte (192 + cp / 64); byte (128 + cp mod 64)]
  else if Z.ltb cp 65536 then
    [byte (224 + cp / 4096); byte (128 + (cp / 64) mod 64);
     byte (128 + cp mod 64)]
  else
    [byte (240 + cp / 262144); byte (128 + (cp / 4096) mod 64);
     byte (128 + (cp / 64) mod 64); byte (128 + cp mod 64)].

Definition hex4 (a b c d : ascii) : option Z :=
  match hex_of a, hex_of b, hex_of c, hex_of d with
  | Some x, Some y, Some z, Some t => Some (4096 * x + 256 * y + 16 * z + t)
  | _, _, _, _ => None
  end.

Definition simple_escape (a : ascii) : option ascii :=
  let n := nat_of_ascii a in
  if Nat.eqb n 34 then Some quote
  else if Nat.eqb n 92 then Some backslash
  else if Nat.eqb n 47 then Some "/"%char
  else if Nat.eqb n 98 then Some "008"%char
  else if Nat.eqb n 102 then Some "012"%char
  else if Nat.eqb n 110 then Some "010"%char
  else if Nat.eqb n 114 then Some "013"%char
  else if Nat.eqb n 116 then Some "009"%char
  else None.

(** The text of a string literal after its opening quote, and what
    follows the closing quote.  A surrogate escape that is not half of a
    pair has no UTF-8 form and is refused. *)
Fixpoint scan_string (l : list ascii) (acc : list ascii)
  : option (string * list ascii) :=
  match l with
  | [] => None
  | a :: l1 =>
      if Ascii.eqb a quote then Some (string_of_list_ascii (rev acc), l1)
      else if Ascii.eqb a backslash then
        match l1 with
        | "u"%char :: h1 :: h2 :: h3 :: h4 :: l2 =>
            match hex4 h1 h2 h3 h4 with
            | None => None
            | Some hi =>
                if (Z.leb 55296 hi && Z.leb hi 56319)%bool then
                  match l2 with
                  | b :: "u"%char :: g1 :: g2 :: g3 :: g4 :: l3 =>
                      if Ascii.eqb b backslash then
                        match hex4 g1 g2 g3 g4 with
                        | Some lo =>
                            if (Z.leb 56320 lo && Z.leb lo 57343)%bool then
                              scan_string l3
                                (rev (utf8 (65536 + (hi - 55296) * 1024
                                            + (lo - 56320))) +++ acc)
                            else None
                        | None => None
                        end
                      else None
                  | _ => None
                  end
                else if (Z.leb 56320 hi && Z.leb hi 57343)%bool then None
                else scan_string l2 (rev (utf8 hi) +++ acc)
            end
        | c :: l2 =>
            match simple_escape c with
            | Some x => scan_string l2 (x :: acc)
            | None => None
            end
        | [] => None
        end
      else if Nat.ltb (nat_of_ascii a) 32 then None
      else scan_string l1 (a :: acc)
  end.

(** The float nearest to [d * 10^e10], ties to even, with the sign
    [neg]. *)
Definition float_of_decimal (neg : bool) (d : Z) (ndigits : Z) (e10 : Z)
  : spec_float :=
  if Z.eqb d 0 then S754_zero neg
  else if Z.ltb 400 e10 then S754_infinity neg
  else if Z.ltb (ndigits + e10) (-400) then S754_zero neg
  else
    let sd := cond_Zopp neg d in
    if Z.leb 0 e10 then binary_normalize 53 1024 (sd * 10 ^ e10) 0 neg
    else
      let den := 10 ^ (- e10) in
      let k := Z.max 0 (64 + Z.log2 den - Z.log2 d) in
      let q := (d * 2 ^ k) / den in
      let sticky := if Z.eqb ((d * 2 ^ k) mod den) 0 then 0 else 1 in
      binary_normalize 53 1024 (cond_Zopp neg (2 * q + sticky)) (- k - 1) neg.

(** A number literal: an int when it has neither fraction nor
    exponent, else a float.  An int of more than 4300 digits is refused,
    as [int] refuses it. *)
Definition scan_number (l : list ascii) : option (value * list ascii) :=
  let '(neg, l0) :=
    match l with
    | "-"%char :: l' => (true, l')
    | _ => (false, l)
    end in
  match l0 with
  | [] => None
  | a :: l1 =>
      match digit_of a with
      | None => None
      | Some d0 =>
          let '(int_part, int_count, l2) :=
            if Z.eqb d0 0 then (0, 1, l1) else digits l1 d0 1 in
          let '(with_frac, frac_count, l3) :=
            match l2 with
            | "."%char :: l' =>
                let '(v, c, r) := digits l' int_part 0 in
                if Z.eqb c 0 then (int_part, -1, l2) else (v, c, r)
            | _ => (int_part, -1, l2)
            end in
          let '(exponent, has_exp, l4) :=
            match l3 with
            | e :: l' =>
                if (Ascii.eqb e "e" || Ascii.eqb e "E")%bool then
                  let '(eneg, l'') :=
                    match l' with
                    | "-"%char :: r => (true, r)
                    | "+"%char :: r => (false, r)
                    | _ => (false, l')
                    end in
                  let '(v, c, r) := digits l'' 0 0 in
                  if Z.eqb c 0 then (0, false, l3)
                  else (cond_Zopp eneg v, true, r)
                else (0, false, l3)
            | [] => (0, false, l3)
            end in
          if (Z.eqb frac_count (-1) && negb has_exp)%bool
          then
            if Z.ltb 4300 int_count then None
            else Some (PyInt (cond_Zopp neg int_part), l4)
          else
            let fc := Z.max 0 frac_count in
            Some (PyFloat (float_of_decimal neg with_frac (int_count + fc)
                             (exponent - fc)), l4)
      end
  end.

(** [dict(pairs)]: a later value replaces an earlier one in place. *)
Fixpoint set (d : list (string * value)) (k : string) (v : value)
  : list (string * value) :=
  match d with
  | [] => [(k, v)]
  | (k', v') :: d' =>
      if String.eqb k' k then (k', v) :: d' else (k', v') :: set d' k v
  end.

Definition literals : list (list ascii * value) :=
  map (fun '(s, v) => (list_ascii_of_string s, v))
    [ ("null", PyNone); ("true", PyBool true); ("false", PyBool false);
      ("NaN", PyFloat S754_nan); ("Infinity", PyFloat (S754_infinity false));
      ("-Infinity", PyFloat (S754_infinity true)) ].

Fixpoint drop_text (p l : list ascii) : option (list ascii) :=
  match p, l with
  | [], _ => Some l
  | a :: p', b :: l' => if Ascii.eqb a b then drop_text p' l' else None
  | _ :: _, [] => None
  end.

Fixpoint scan_literal (table : list (list ascii * value)) (l : list ascii)
  : option (value * list ascii) :=
  match table with
  | [] => None
  | (p, v) :: table' =>
      match drop_text p l with
      | Some rest => Some (v, rest)
      | None => scan_literal table' l
      end
  end.

(** One value at the head of [l].  The fuel bounds the nesting and the
    number of members. *)
Fixpoint scan_once (fuel : nat) (l : list ascii) {struct fuel}
  : option (value * list ascii) :=
  match fuel with
  | O => None
  | S fuel' =>
      match l with
      | [] => None
      | a :: l1 =>
          if Ascii.eqb a quote then
            match scan_string l1 [] with
            | Some (s, rest) => Some (PyStr s, rest)
            | None => None
            end
          else if Ascii.eqb a "{" then
            match skip_ws l1 with
            | b :: l2 =>
                if Ascii.eqb b "}" then Some (PyDict [], l2)
                else scan_members fuel' (skip_ws l1) []
            | [] => None
            end
          else if Ascii.eqb a "[" then
            match skip_ws l1 with
            | b :: l2 =>
                if Ascii.eqb b "]" then Some (PyList [], l2)
                else scan_items fuel' (skip_ws l1) []
            | [] => None
            end
          else
            match scan_number l with
            | Some r => Some r
            | None => scan_literal literals l
            end
      end
  end

with scan_members (fuel : nat) (l : list ascii) (acc : list (string * value))
  {struct fuel} : option (value * list ascii) :=
  match fuel with
  | O => None
  | S fuel' =>
      match l with
      | a :: l1 =>
          if Ascii.eqb a quote then
            match scan_string l1 [] with
            | Some (key, l2) =>
                match skip_ws l2 with
                | ":"%char :: l3 =>
                    match scan_once fuel' (skip_ws l3) with
                    | Some (v, l4) =>
                        let acc' := set acc key v in
                        match skip_ws l4 with
                        | c :: l5 =>
                            if Ascii.eqb c "}" then Some (PyDict acc', l5)
                            else if Ascii.eqb c "," then
                              scan_members fuel' (skip_ws l5) acc'
                            else None
                        | [] => None
                        end
                    | None => None
                    end
                | _ => None
                end
            | None => None
            end
          else None
      | [] => None
      end
  end

with scan_items (fuel : nat) (l : list ascii) (acc : list value)
  {struct fuel} : option (value * list ascii) :=
  match fuel with
  | O => None
  | S fuel' =>
      match scan_once fuel' l with
      | Some (v, l1) =>
          match skip_ws l1 with
          | c :: l2 =>
              if Ascii.eqb c "]" then Some (PyList (rev (v :: acc)), l2)
              else if Ascii.eqb c "," then
                scan_items fuel' (skip_ws l2) (v :: acc)
              else None
          | [] => None
          end
      | None => None
      end
  end.

(** [json.loads(s)]: one value, with whitespace allowed around it.  Any
    failure stands for the [JSONDecodeError] Python raises. *)
Definition loads (s : string) : raises value :=
  let l := list_ascii_of_string s in
  match scan_once (2 * List.length l + 2) (skip_ws l) with
  | Some (v, rest) =>
      match skip_ws rest with
      | [] => inr v
      | _ => inl (OtherError "JSONDecodeError")
      end
  | None => inl (OtherError "JSONDecodeError")
  end.

End Json.

Module Repr.

(** The largest [p] with [10^p <= num / den], for positive [num] and
    [den]. *)
Fixpoint scale_up (fuel : nat) (num den : Z) (j : Z) : Z :=
  match fuel with
  | O => j
  | S fuel' =>
      if Z.ltb (num * 10 ^ j) den then scale_up fuel' num den (j + 1) else j
  end.

Definition log10_floor (num den : Z) : Z :=
  if Z.leb den num
  then Z.of_nat (String.length (Py.str_of_Z (num / den))) - 1
  else - scale_up 400 num den 1.

(** The integer nearest below [num / den / 10^k]. *)
Definition scaled_floor (num den k : Z) : Z :=
  if Z.leb 0 k then num / (den * 10 ^ k) else (num * 10 ^ (- k)) / den.

(** Does the decimal [c * 10^k] read back as the float [x]? *)
Definition reads_back (x : spec_float) (c k : Z) : bool :=
  match Json.float_of_decimal false c 0 k, x with
  | S754_finite _ m1 e1, S754_finite _ m2 e2 =>
      (Pos.eqb m1 m2 && Z.eqb e1 e2)%bool
  | _, _ => false
  end.

(** The shortest decimal [c * 10^k] that reads back as [m * 2^e],
    looking at [n], [n + 1], ... significant digits; of two candidates of
    one length the nearer wins, and the even one on a tie. *)
Fixpoint shortest (fuel : nat) (n : Z) (x : spec_float) (num den p : Z)
  : Z * Z :=
  let k := p - n + 1 in
  let lo := scaled_floor num den k in
  let hi := lo + 1 in
  match fuel with
  | O => (lo, k)
  | S fuel' =>
      let ok_lo := reads_back x lo k in
      let ok_hi := reads_back x hi k in
      (* compare 2 * num / den with (lo + hi) * 10^k *)
      let side :=
        if Z.leb 0 k
        then Z.compare (2 * num) ((lo + hi) * 10 ^ k * den)
        else Z.compare (2 * num * 10 ^ (- k)) ((lo + hi) * den) in
      if (ok_lo && ok_hi)%bool then
        match side with
        | Lt => (lo, k)
        | Gt => (hi, k)
        | Eq => if Z.even lo then (lo, k) else (hi, k)
        end
      else if ok_lo then (lo, k)
      else if ok_hi then (hi, k)
      else shortest fuel' (n + 1) x num den p
  end.

Fixpoint strip_zeros (fuel : nat) (c k : Z) : Z * Z :=
  match fuel with
  | O => (c, k)
  | S fuel' =>
      if Z.eqb (c mod 10) 0 then strip_zeros fuel' (c / 10) (k + 1)
      else (c, k)
  end.

Fixpoint zeros (n : nat) : string :=
  match n with
  | O => ""
  | S n' => "0" ++ zeros n'
  end.

(** [repr] of a positive finite float: fixed notation when the decimal
    point falls within the digits or close to them, else an exponent of
    at least two digits. *)
Definition positive_repr (m : positive) (e : Z) : string :=
  let x := binary_normalize 53 1024 (Zpos m) e false in
  let num := if Z.leb 0 e then Zpos m * 2 ^ e else Zpos m in
  let den := if Z.leb 0 e then 1 else 2 ^ (- e) in
  let p := log10_floor num den in
  let '(c0, k0) := shortest 17 1 x num den p in
  let '(c, k) := strip_zeros 20 c0 k0 in
  let ds := Py.str_of_Z c in
  let n := Z.of_nat (String.length ds) in
  let decpt := n + k in
  if (Z.ltb (-4) decpt && Z.leb decpt 16)%bool then
    if Z.leb decpt 0 then "0." ++ zeros (Z.to_nat (- decpt)) ++ ds
    else if Z.leb n decpt then ds ++ zeros (Z.to_nat (decpt - n)) ++ ".0"
    else substring 0 (Z.to_nat decpt) ds ++ "."
           ++ substring (Z.to_nat decpt) (Z.to_nat (n - decpt)) ds
  else
    let ex := decpt - 1 in
    let mant :=
      if Z.eqb n 1 then ds
      else substring 0 1 ds ++ "." ++ substring 1 (Z.to_nat (n - 1)) ds in
    let digits := Py.str_of_Z (Z.abs ex) in
    mant ++ "e" ++ (if Z.ltb ex 0 then "-" else "+")
      ++ (if Z.ltb (Z.abs ex) 10 then "0" ++ digits else digits).

Definition float_repr (f : spec_float) : string :=
  match f with
  | S754_nan => "nan"
  | S754_infinity s => if s then "-inf" else "inf"
  | S754_zero s => if s then "-0.0" else "0.0"
  | S754_finite s m e => (if s then "-" else "") ++ positive_repr m e
  end.

Definition hex_digit (n : nat) : ascii :=
  ascii_of_nat (if Nat.ltb n 10 then 48 + n else 87 + n).

(** One character of a string inside [repr]: ASCII control characters
    are escaped; bytes of a character beyond ASCII are kept, as Python
    keeps every printable character. *)
Definition escape_char (q : ascii) (a : ascii) : string :=
  let n := nat_of_ascii a in
  if (Ascii.eqb a q || Ascii.eqb a Json.backslash)%bool
  then String Json.backslash (String a "")
  else if Nat.eqb n 9 then String Json.backslash "t"
  else if Nat.eqb n 10 then String Json.backslash "n"
  else if Nat.eqb n 13 then String Json.backslash "r"
  else if (Nat.ltb n 32 || Nat.eqb n 127)%bool
  then String Json.backslash
         (String "x" (String (hex_digit (n / 16)) (String (hex_digit (n mod 16)) "")))
  else String a "".

Fixpoint escape (q : ascii) (s : string) : string :=
  match s with
  | EmptyString => ""
  | String a s' => escape_char q a ++ escape q s'
  end.

(** [repr] of a [str]: single quotes, unless the text has a single
    quote and no double quote. *)
Definition str_repr (s : string) : string :=
  let q :=
    if (Py.contains_char "'" s && negb (Py.contains_char Json.quote s))%bool
    then Json.quote else "'"%char in
  String q (escape q s) ++ String q "".

Fixpoint repr (v : value) : string :=
  match v with
  | PyNone => "None"
  | PyBool b => if b then "True" else "False"
  | PyInt z => Py.str_of_Z z
  | PyFloat f => float_repr f
  | PyStr s => str_repr s
  | PyList l => "[" ++ String.concat ", " (map repr l) ++ "]"
  | PyDict d =>
      "{" ++ String.concat ", "
               (map (fun kv => str_repr (fst kv) ++ ": " ++ repr (snd kv)) d)
          ++ "}"
  end.

End Repr.

(** * Vocabulary of the properties *)

(** The traversal of a key path as the specification words it: from an
    object, one key after the other, each found in the object reached so
    far. *)
Inductive traverses : value -> list string -> value -> Prop :=
| traverses_end : forall d, traverses d [] d
| traverses_step : forall d k path child v,
    Py.lookup d k = Some child ->
    traverses child path v ->
    traverses (PyDict d) (k :: path) v.

(** A path resolves to [v] when its full traversal yields [v] and [v] is
    not null. *)
Definition resolves (d : value) (path : list string) (v : value) : Prop :=
  traverses d path v /\ v <> PyNone.

Definition unresolved (d : value) (path : list string) : Prop :=
  forall v, ~ resolves d path v.

Definition bytes (p : list nat) : list ascii := map ascii_of_nat p.

(** A run of whitespace characters, each one of the table [ws]. *)
Inductive spaces (ws : list (list nat)) : list ascii -> Prop :=
| spaces_none : spaces ws []
| spaces_more : forall p l,
    In p ws -> spaces ws l -> spaces ws (bytes p +++ l).

(** Text that neither starts nor ends with a whitespace character. *)
Definition trimmed (s : string) : Prop :=
  Py.drop_one Py.whitespace (list_ascii_of_string s) = None
  /\ Py.drop_one (map (@rev nat) Py.whitespace)
       (rev (list_ascii_of_string s)) = None.

(** The root causes [_get_account_info] and the field grid look at. *)
Definition root_causes_of (anomaly : value) : value :=
  Py.or_ (_get_any anomaly causes_paths (PyList [])) (PyList []).

(** [d.get(k)] on the association list of a dict. *)
Definition value_at (d : list (string * value)) (k : string) : value :=
  match Py.lookup d k with
  | Some v => v
  | None => PyNone
  end.

(** The object has an identifier key, under either spelling. *)
Definition has_identifier_field (d : list (string * value)) : bool :=
  (match Py.lookup d "AnomalyId" with Some _ => true | None => false end
   || match Py.lookup d "anomalyId" with Some _ => true | None => false end)%bool.

(** The object has an identifier the handler accepts: a truthy value
    under either spelling. *)
Definition usable_identifier (d : list (string * value)) : bool :=
  (Py.truthy (value_at d "AnomalyId") || Py.truthy (value_at d "anomalyId"))%bool.

(** The decoded message has no identifier key, neither at the top nor in
    an object under ["detail"]. *)
Definition lacks_identifier (v : value) : Prop :=
  match v with
  | PyDict d =>
      has_identifier_field d = false
      /\ forall inner, Py.lookup d "detail" = Some (PyDict inner) ->
                       has_identifier_field inner = false
  | _ => True
  end.

(** The root the handler selects, given what decoding the message gave:
    the object itself when it has a usable identifier, else the object
    under ["detail"] when that has one. *)
Definition selected_root (decoded : raises value) : value :=
  match decoded with
  | inr (PyDict d) =>
      if usable_identifier d then PyDict d
      else
        match Py.lookup d "detail" with
        | Some (PyDict inner) =>
            if usable_identifier inner then PyDict inner else PyNone
        | _ => PyNone
        end
  | _ => PyNone
  end.

(** JSON text written with single quotes for double quotes. *)
Fixpoint sq (s : string) : string :=
  match s with
  | EmptyString => EmptyString
  | String a s' =>
      String (if Ascii.eqb a "'"%char then Json.quote else a) (sq s')
  end.




(** A network that delivers everything, and one that answers [r] from
    the [n]-th request of the process on. *)
Definition always_delivered : list request -> request -> response :=
  fun _ _ => Delivered.

Definition fails_from (n : nat) (r : response)
  : list request -> request -> response :=
  fun earlier _ => if Nat.ltb (List.length earlier) n then Delivered else r.

(** A process with the webhook configured and nothing printed or sent. *)
Definition fresh_world (webhook_url : option string) : world :=
  {| environ := fun name =>
       if String.eqb name "SLACK_WEBHOOK_URL" then webhook_url else None;
     stdout := []; stderr := []; posts := [] |}.

(** An SNS record carrying the message [msg]. *)
Definition sns_record (msg : string) : value :=
  PyDict [("EventSource", PyStr "aws:sns");
          ("Sns", PyDict [("Message", PyStr msg)])].

(** *** Payloads with the same field values in either spelling *)

Inductive convention : Type :=
| TitleCase
| CamelCase.

Definition key (c : convention) (title camel : string) : string :=
  match c with
  | TitleCase => title
  | CamelCase => camel
  end.

(** The fields of the anomaly record of the specification; [None] is a
    key that the payload does not have. *)
Record cause_fields : Type := {
  cause_service : option value;
  cause_account : option value;
  cause_account_name : option value;
  cause_region : option value;
  cause_usage : option value
}.

Record impact_fields : Type := {
  impact_total : option value;
  impact_percentage : option value
}.

Record anomaly_fields : Type := {
  field_id : option value;
  field_start : option value;
  field_end : option value;
  field_impact : option impact_fields;
  field_causes : option (list cause_fields);
  field_link : option value
}.

Definition entry (k : string) (o : option value) : list (string * value) :=
  match o with
  | Some v => [(k, v)]
  | None => []
  end.

Definition encode_cause (c : convention) (rc : cause_fields) : value :=
  PyDict
    (entry (key c "Service" "service") (cause_service rc)
     +++ entry (key c "LinkedAccount" "linkedAccount") (cause_account rc)
     +++ entry (key c "LinkedAccountName" "linkedAccountName")
           (cause_account_name rc)
     +++ entry (key c "Region" "region") (cause_region rc)
     +++ entry (key c "UsageType" "usageType") (cause_usage rc)).

Definition encode_impact (c : convention) (i : impact_fields) : value :=
  PyDict
    (entry (key c "TotalImpact" "totalImpact") (impact_total i)
     +++ entry (key c "TotalImpactPercentage" "totalImpactPercentage")
           (impact_percentage i)).

(** The payload that spells the fields of [a] in the convention [c]. *)
Definition encode (c : convention) (a : anomaly_fields) : value :=
  PyDict
    (entry (key c "AnomalyId" "anomalyId") (field_id a)
     +++ entry (key c "AnomalyStartDate" "anomalyStartDate") (field_start a)
     +++ entry (key c "AnomalyEndDate" "anomalyEndDate") (field_end a)
     +++ entry (key c "Impact" "impact")
           (option_map (encode_impact c) (field_impact a))
     +++ entry (key c "RootCauses" "rootCauses")
           (option_map (fun l => PyList (map (encode_cause c) l))
              (field_causes a))
     +++ entry (key c "AnomalyDetailsLink" "anomalyDetailsLink")
           (field_link a)).

(** The identifier of the record, null when it has none. *)
Definition identifier (a : anomaly_fields) : value :=
  match field_id a with
  | Some v => v
  | None => PyNone
  end.

(** A field that [format(x, ",.2f")] accepts: anything but an int too
    large for a float. *)
Definition formattable (v : value) : Prop :=
  match Py.as_number v with
  | Some x => exists text, Py.format_comma_2f x = inr text
  | None => True
  end.

(** The anomaly of the specification's example, and the two messages that
    spell it. *)
Definition sample_anomaly : anomaly_fields :=
  {| field_id := Some (PyStr "a1");
     field_start := Some (PyStr "2025-11-01T00:00:00Z");
     field_end := Some (PyStr "2025-11-02T00:00:00Z");
     field_impact :=
       Some {| impact_total := Some (PyFloat (Json.float_of_decimal false 1505 4 (-1)));
               impact_percentage := Some (PyFloat (Json.float_of_decimal false 123 3 (-1))) |};
     field_causes :=
       Some [ {| cause_service := Some (PyStr "EC2");
                 cause_account := Some (PyStr "123456789012");
                 cause_account_name := None;
                 cause_region := Some (PyStr "us-east-1");
                 cause_usage := None |} ];
     field_link := None |}.

Definition sample_title : string :=
  sq ("{'AnomalyId':'a1','AnomalyStartDate':'2025-11-01T00:00:00Z',"
      ++ "'AnomalyEndDate':'2025-11-02T00:00:00Z',"
      ++ "'Impact':{'TotalImpact':150.5,'TotalImpactPercentage':12.3},"
      ++ "'RootCauses':[{'Service':'EC2','LinkedAccount':'123456789012',"
      ++ "'Region':'us-east-1'}]}").

Definition sample_camel : string :=
  sq ("{'anomalyId':'a1','anomalyStartDate':'2025-11-01T00:00:00Z',"
      ++ "'anomalyEndDate':'2025-11-02T00:00:00Z',"
      ++ "'impact':{'totalImpact':150.5,'totalImpactPercentage':12.3},"
      ++ "'rootCauses':[{'service':'EC2','linkedAccount':'123456789012',"
      ++ "'region':'us-east-1'}]}").

(** The message of the specification's example, keys in its order. *)
Definition sample_message : string :=
  sq ("{'AnomalyId':'a1','Impact':{'TotalImpact':150.5,"
      ++ "'TotalImpactPercentage':12.3},"
      ++ "'AnomalyStartDate':'2025-11-01T00:00:00Z',"
      ++ "'AnomalyEndDate':'2025-11-02T00:00:00Z',"
      ++ "'RootCauses':[{'Service':'EC2','LinkedAccount':'123456789012',"
      ++ "'Region':'us-east-1'}]}").

(** A message whose impact is the integer 10^400. *)
Definition huge_impact_message : string :=
  sq "{'AnomalyId':'a1','Impact':{'TotalImpact':1" ++ Repr.zeros 400 ++ "}}".

Definition sample_hook : string := "https://hooks.slack.com/services/T0/B0/XYZ".

(** The colour of the attachment of a rendered anomaly. *)
Definition attachment_color (rendered : raises value) : option value :=
  match rendered with
  | inr (PyDict [("attachments", PyList [PyDict (("color", c) :: _)])]) => Some c
  | _ => None
  end.

(** *** Shapes of the rendered blocks *)

Definition header_block (title : string) : value :=
  PyDict [("type", PyStr "header");
          ("text", PyDict [("type", PyStr "plain_text");
                           ("text", PyStr title);
                           ("emoji", PyBool true)])].

Definition actions_block (console_url : value) : value :=
  PyDict [("type", PyStr "actions");
          ("elements",
           PyList [PyDict [("type", PyStr "button");
                           ("text", PyDict [("type", PyStr "plain_text");
                                            ("text", PyStr "Open in AWS Console")]);
                           ("url", console_url);
                           ("style", PyStr "primary")]])].

Definition context_block : value :=
  PyDict [("type", PyStr "context");
          ("elements",
           PyList [mrkdwn "Sent by Cost Anomaly Detection → SNS → Lambda → Slack"])].

(** The title of the header for a tier. *)
Definition header_title (tier : severity) : string :=
  emoji tier ++ " AWS Cost Anomaly Detected: " ++ label tier ++ " " ++ emoji tier.

(** A field of the grid: a markdown text object. *)
Definition is_mrkdwn (v : value) : Prop := exists text, v = mrkdwn text.

(** The order of the tiers by impact. *)
Definition tier_rank (tier : severity) : nat :=
  if String.eqb (label tier) "HIGH" then 2
  else if String.eqb (label tier) "MEDIUM" then 1
  else 0.


(** A request as [_post_to_slack] makes them, to the URL the environment
    of [w] configures. *)
Definition slack_post (w : world) (req : request) : Prop :=
  environ w "SLACK_WEBHOOK_URL" = Some (url req)
  /\ method req = "POST"
  /\ timeout req = 10
  /\ headers req = [("Content-Type", "application/json")].


(** *** Payloads with the same field values, key by key *)

(** The first of two values that is not null, else the default. *)
Definition first_of (x y default : value) : value :=
  if Py.is_none x then (if Py.is_none y then default else y) else x.

(** The two spellings of the fields the module reads. *)
Definition scalar_keys : list (string * string) :=
  [("AnomalyId", "anomalyId"); ("AnomalyStartDate", "anomalyStartDate");
   ("AnomalyEndDate", "anomalyEndDate");
   ("AnomalyDetailsLink", "anomalyDetailsLink")].

Definition impact_keys : list (string * string) :=
  [("TotalImpact", "totalImpact");
   ("TotalImpactPercentage", "totalImpactPercentage")].

Definition cause_keys : list (string * string) :=
  [("Service", "service"); ("LinkedAccount", "linkedAccount");
   ("LinkedAccountName", "linkedAccountName"); ("Region", "region");
   ("UsageType", "usageType")].

(** [d] spells the keys in capitalized form only, [d'] in lower-camel
    form only, and each field has the same value in both; a key that is
    not there counts as null.  Other keys, and the order of the keys, are
    free. *)
Definition same_values (keys : list (string * string))
  (d d' : list (string * value)) : Prop :=
  forall title camel,
    In (title, camel) keys ->
    value_at d title = value_at d' camel
    /\ value_at d camel = PyNone
    /\ value_at d' title = PyNone.

(** The same for a value that should be an object: two objects with the
    same field values, or one and the same value that is not an
    object. *)
Definition same_object (keys : list (string * string)) (v v' : value) : Prop :=
  match v, v' with
  | PyDict d, PyDict d' => same_values keys d d'
  | _, _ => v = v' /\ Py.is_dict v = false
  end.

(** Two lists of root causes with the same field values entry by entry,
    or one and the same value that is not a list. *)
Definition same_causes (v v' : value) : Prop :=
  match v, v' with
  | PyList l, PyList l' => Forall2 (same_object cause_keys) l l'
  | _, _ => v = v' /\ Py.is_list v = false
  end.

(** Two payloads with the same field values, [d] in capitalized keys and
    [d'] in lower-camel keys. *)
Definition same_anomaly (d d' : list (string * value)) : Prop :=
  same_values scalar_keys d d'
  /\ same_object impact_keys (value_at d "Impact") (value_at d' "impact")
  /\ value_at d "impact" = PyNone
  /\ value_at d' "Impact" = PyNone
  /\ same_causes (value_at d "RootCauses") (value_at d' "rootCauses")
  /\ value_at d "rootCauses" = PyNone
  /\ value_at d' "RootCauses" = PyNone.

(** The example in lower-camel keys, in another order and with a field
    the module does not read. *)
Definition sample_camel_reordered : string :=
  sq ("{'accountName':'prod',"
      ++ "'rootCauses':[{'region':'us-east-1','service':'EC2',"
      ++ "'linkedAccount':'123456789012'}],"
      ++ "'anomalyEndDate':'2025-11-02T00:00:00Z',"
      ++ "'anomalyStartDate':'2025-11-01T00:00:00Z',"
      ++ "'impact':{'totalImpactPercentage':12.3,'totalImpact':150.5},"
      ++ "'anomalyId':'a1'}").

(** * Properties *)

(** ** Field resolution *)


Lemma traverses_functional : forall d path v v',
  traverses d path v -> traverses d path v' -> v = v'.
Proof.
  intros d path v v' H. revert v'.
  induction H as [d | d k path child v Hk _ IH]; intros v' H'.
  - inversion H'. reflexivity.
  - inversion H' as [| d0 k0 path0 child' v0 Hk' Hrest]; subst.
    rewrite Hk in Hk'. injection Hk' as <-. now apply IH.
Qed.

Lemma safe_get_try_none : forall path default,
  safe_get_try PyNone path default = inr default.
Proof. intros [| k path] default; reflexivity. Qed.

Lemma safe_get_resolves : forall d path v default,
  resolves d path v -> _safe_get d path default = v.
Proof.
  intros d path v default [Ht Hv]. unfold _safe_get.
  induction Ht as [d | d k path child v Hk Ht IH]; simpl.
  - destruct d; simpl; congruence.
  - rewrite Hk. now apply IH.
Qed.

Lemma safe_get_found : forall path d,
  _safe_get d path PyNone <> PyNone ->
  resolves d path (_safe_get d path PyNone).
Proof.
  induction path as [| k path IH]; intros d H.
  - unfold _safe_get in *. simpl in *.
    destruct d; simpl in *; try congruence;
      (split; [constructor | discriminate]).
  - destruct d as [| b | z | f | s | l | o];
      try (exfalso; apply H; reflexivity).
    unfold _safe_get in H |- *. simpl in H |- *.
    destruct (Py.lookup o k) as [child |] eqn:Hk.
    + destruct (IH child H) as [Ht Hv].
      split; [econstructor; eassumption | exact Hv].
    + rewrite safe_get_try_none in H. congruence.
Qed.

Lemma safe_get_unresolved : forall d path,
  _safe_get d path PyNone = PyNone -> unresolved d path.
Proof.
  intros d path H v Hr.
  pose proof (safe_get_resolves d path v PyNone Hr) as E.
  destruct Hr as [_ Hv]. congruence.
Qed.

Lemma is_none_true : forall v, Py.is_none v = true -> v = PyNone.
Proof. destruct v; simpl; congruence. Qed.

Lemma is_none_false : forall v, Py.is_none v = false -> v <> PyNone.
Proof. destruct v; simpl; congruence. Qed.

Lemma traverses_app : forall before rest d v,
  traverses d (before +++ rest) v ->
  exists mid, traverses d before mid /\ traverses mid rest v.
Proof.
  induction before as [| k before IH]; intros rest d v H; simpl in H.
  - exists d. split; [constructor | exact H].
  - inversion H as [| o k0 p0 child v0 Hk Hrest]; subst.
    destruct (IH _ _ _ Hrest) as [mid [H1 H2]].
    exists mid. split; [econstructor; eassumption | exact H2].
Qed.

(** A traversal that reaches null before the end of the path does not
    resolve; neither does one that reaches an object without the next
    key, or anything that is not an object. *)
Lemma null_partway : forall d before k rest,
  traverses d before PyNone -> unresolved d (before +++ k :: rest).
Proof.
  intros d before k rest H v [Ht _].
  destruct (traverses_app _ _ _ _ Ht) as [mid [H1 H2]].
  rewrite (traverses_functional _ _ _ _ H1 H) in H2. inversion H2.
Qed.

Lemma absent_partway : forall d before o k rest,
  traverses d before (PyDict o) -> Py.lookup o k = None ->
  unresolved d (before +++ k :: rest).
Proof.
  intros d before o k rest H Hk v [Ht _].
  destruct (traverses_app _ _ _ _ Ht) as [mid [H1 H2]].
  rewrite (traverses_functional _ _ _ _ H1 H) in H2.
  inversion H2; congruence.
Qed.

Lemma not_object_partway : forall d before mid k rest,
  traverses d before mid -> Py.is_dict mid = false ->
  unresolved d (before +++ k :: rest).
Proof.
  intros d before mid k rest H Hm v [Ht _].
  destruct (traverses_app _ _ _ _ Ht) as [mid' [H1 H2]].
  rewrite (traverses_functional _ _ _ _ H1 H) in H2.
  inversion H2; subst; discriminate.
Qed.

(** C2.  [_get_any] walks the candidate paths in order and returns the
    value of the first one that resolves, that is, whose full traversal
    yields a value that is not null; a path whose traversal reaches a null
    or absent value partway is passed over; when no path resolves the
    default comes back. *)
Theorem get_any_first_resolved : forall d paths default,
  ((exists before path after v,
       paths = before +++ path :: after /\
       Forall (unresolved d) before /\
       resolves d path v /\
       _get_any d paths default = v)
   \/ (Forall (unresolved d) paths /\ _get_any d paths default = default))
  /\ (forall before k rest,
        traverses d before PyNone -> unresolved d (before +++ k :: rest))
  /\ (forall before o k rest,
        traverses d before (PyDict o) -> Py.lookup o k = None ->
        unresolved d (before +++ k :: rest)).
Proof.
  intros d paths default. split; [| split].
  - induction paths as [| p paths IH]; simpl.
    + right. split; [constructor | reflexivity].
    + destruct (Py.is_none (_safe_get d p PyNone)) eqn:E.
      * apply is_none_true in E. apply safe_get_unresolved in E.
        destruct IH as [[before [path [after [v [-> [Hb [Hr Hv]]]]]]] | [Hall Hv]].
        -- left. exists (p :: before), path, after, v.
           repeat split; try assumption; try apply Hr.
           constructor; assumption.
        -- right. split; [constructor; assumption | exact Hv].
      * apply is_none_false in E. left.
        exists [], p, paths, (_safe_get d p PyNone).
        repeat split; try constructor; try apply (safe_get_found p d E).
  - apply null_partway.
  - apply absent_partway.
Qed.

(** Key paths looked up in one payload: the first candidate is absent,
    the second is cut short by a null, the third resolves. *)
Lemma get_any_first_resolved_witness :
  let d := PyDict [("impact", PyNone);
                   ("Total", PyDict [("Amount", PyInt 7)])] in
  unresolved d (["impact"] +++ "totalImpact" :: [])
  /\ _get_any d [["Impact"; "TotalImpact"]; ["impact"; "totalImpact"];
                  ["Total"; "Amount"]] (PyStr "n/a") = PyInt 7.
Proof.
  split.
  - apply (get_any_first_resolved
             (PyDict [("impact", PyNone);
                      ("Total", PyDict [("Amount", PyInt 7)])]) [] PyNone).
    apply (traverses_step _ "impact" [] PyNone PyNone); [reflexivity | constructor].
  - reflexivity.
Defined.

(** ** Severity *)

Lemma gt_finite : forall x q c,
  Py.number_value x = Py.Finite q ->
  (Py.gt x c = true <-> (inject_Z c < q)%Q) /\
  (Py.gt x c = false <-> (q <= inject_Z c)%Q).
Proof.
  intros x q c H. unfold Py.gt. rewrite H.
  pose proof (Qle_bool_iff q (inject_Z c)) as B.
  destruct (Qle_bool q (inject_Z c)); simpl; split; split; intro K;
    try discriminate; try reflexivity.
  - exfalso. apply (Qlt_not_le _ _ K). now apply B.
  - now apply B.
  - apply Qnot_le_lt. intro L. apply B in L. discriminate.
  - apply B in K. discriminate.
Qed.

Lemma tiers_distinct :
  HIGH <> MEDIUM /\ HIGH <> LOW /\ MEDIUM <> LOW /\
  UNKNOWN <> HIGH /\ UNKNOWN <> MEDIUM /\ UNKNOWN <> LOW.
Proof. repeat split; discriminate. Qed.

(** C3, as the code has it.  For a number whose value is a rational [q]
    (an int, a bool, a finite float) the tier is HIGH exactly when
    [q > 100], MEDIUM exactly when [50 < q <= 100], LOW exactly when
    [q <= 50]; plus infinity is HIGH, minus infinity is LOW, and NaN, for
    which every comparison is false, is LOW; no amount gives UNKNOWN; the
    four tiers carry their fixed colour, icon and label.  The classifier
    is a function of its argument alone: it is deterministic and has no
    effect. *)
Theorem severity_by_threshold : forall x : Py.number,
  (forall q, Py.number_value x = Py.Finite q ->
     (_get_severity_details (Some x) = HIGH <-> (inject_Z 100 < q)%Q) /\
     (_get_severity_details (Some x) = MEDIUM <->
        (inject_Z 50 < q)%Q /\ (q <= inject_Z 100)%Q) /\
     (_get_severity_details (Some x) = LOW <-> (q <= inject_Z 50)%Q))
  /\ (Py.number_value x = Py.PlusInf -> _get_severity_details (Some x) = HIGH)
  /\ (Py.number_value x = Py.MinusInf -> _get_severity_details (Some x) = LOW)
  /\ (Py.number_value x = Py.NaN -> _get_severity_details (Some x) = LOW)
  /\ _get_severity_details None = UNKNOWN
  /\ UNKNOWN = {| color := "#78909C"; emoji := ":information_source:";
                  label := "UNKNOWN" |}
  /\ HIGH = {| color := "#C62828"; emoji := ":rotating_light:";
               label := "HIGH" |}
  /\ MEDIUM = {| color := "#FFC107"; emoji := ":warning:";
                 label := "MEDIUM" |}
  /\ LOW = {| color := "#2196F3"; emoji := ":information_source:";
              label := "LOW" |}.
Proof.
  intro x.
  split; [| repeat split; intro H; unfold _get_severity_details, Py.gt;
            rewrite H; reflexivity].
  intros q H.
  destruct (gt_finite x q 100 H) as [G100 L100].
  destruct (gt_finite x q 50 H) as [G50 L50].
  assert (Hw : (inject_Z 50 < inject_Z 100)%Q) by reflexivity.
  unfold _get_severity_details.
  destruct (Py.gt x 100) eqn:E100; [| destruct (Py.gt x 50) eqn:E50].
  - pose proof (proj1 G100 eq_refl) as K.
    split; [| split]; split; try (intros; reflexivity); try discriminate.
    + intros _. exact K.
    + intros [_ A]. exfalso. exact (Qlt_not_le _ _ K A).
    + intro A. exfalso. apply (Qlt_not_le _ _ K).
      apply Qle_trans with (inject_Z 50); [exact A | now apply Qlt_le_weak].
  - pose proof (proj1 L100 eq_refl) as K. pose proof (proj1 G50 eq_refl) as K'.
    split; [| split]; split; try (intros; reflexivity); try discriminate.
    + intro A. exfalso. exact (Qlt_not_le _ _ A K).
    + intros _. split; assumption.
    + intro A. exfalso. exact (Qlt_not_le _ _ K' A).
  - pose proof (proj1 L50 eq_refl) as K.
    split; [| split]; split; try (intros; reflexivity); try discriminate.
    + intro A. exfalso. apply (Qlt_not_le _ _ A).
      apply Qle_trans with (inject_Z 50); [exact K | now apply Qlt_le_weak].
    + intros [A _]. exfalso. exact (Qlt_not_le _ _ A K).
    + intros _. exact K.
Qed.

(** The boundary amounts: exactly 100 is MEDIUM. *)
Lemma severity_by_threshold_witness :
  Py.number_value (Py.NInt 100) = Py.Finite (inject_Z 100)
  /\ _get_severity_details (Some (Py.NInt 100)) = MEDIUM.
Proof.
  split; [reflexivity |].
  apply (proj1 (proj2 (proj1 (severity_by_threshold (Py.NInt 100))
                         (inject_Z 100) eq_refl))).
  split; [reflexivity | apply Qle_refl].
Defined.

(** C3 as stated fails for NaN, which is a float and so a numeric amount:
    the tier is LOW although [NaN <= 50] is false. *)
Lemma severity_nan_counterexample :
  ~ (_get_severity_details (Some (Py.NFloat S754_nan)) = LOW
     <-> Py.le (Py.NFloat S754_nan) 50 = true).
Proof. intros [H _]. specialize (H eq_refl). discriminate. Qed.

Example severity_boundaries :
  map (fun z => label (_get_severity_details (Some (Py.NInt z))))
      [101; 100; 51; 50; 0; -5]
  = ["HIGH"; "MEDIUM"; "MEDIUM"; "LOW"; "LOW"; "LOW"].
Proof. reflexivity. Qed.

Example severity_floats :
  map (fun f => label (_get_severity_details (Some (Py.NFloat f))))
      [ S754_finite false 301 (-1);     (* 150.5 *)
        S754_finite false 1001 (-1);    (* 500.5 *)
        S754_finite false 201 (-2);     (* 50.25 *)
        S754_finite true 3 (-1);        (* -1.5 *)
        S754_infinity false; S754_infinity true; S754_nan ]
  = ["HIGH"; "HIGH"; "MEDIUM"; "LOW"; "HIGH"; "LOW"; "LOW"].
Proof. reflexivity. Qed.

(** ** Trimming *)


Lemma drop_prefix_split : forall p l l',
  Py.drop_prefix p l = Some l' -> l = bytes p +++ l'.
Proof.
  induction p as [| n p IH]; intros l l' H; simpl in H.
  - injection H as <-. reflexivity.
  - destruct l as [| a l]; [discriminate |].
    destruct (Nat.eqb (nat_of_ascii a) n) eqn:E; [| discriminate].
    apply Nat.eqb_eq in E. subst n. simpl.
    rewrite ascii_nat_embedding. f_equal. now apply IH.
Qed.

Lemma drop_prefix_app : forall p l l' more,
  Py.drop_prefix p l = Some l' ->
  Py.drop_prefix p (l +++ more) = Some (l' +++ more).
Proof.
  induction p as [| n p IH]; intros l l' more H; simpl in H.
  - injection H as <-. reflexivity.
  - destruct l as [| a l]; [discriminate |]. simpl.
    destruct (Nat.eqb (nat_of_ascii a) n); [| discriminate].
    now apply IH.
Qed.

Lemma drop_one_split : forall ws l l',
  Py.drop_one ws l = Some l' -> exists p, In p ws /\ l = bytes p +++ l'.
Proof.
  induction ws as [| p ws IH]; intros l l' H; simpl in H; [discriminate |].
  destruct (Py.drop_prefix p l) as [r |] eqn:E.
  - injection H as <-. exists p. split; [now left | now apply drop_prefix_split].
  - destruct (IH _ _ H) as [p' [Hin Hl]]. exists p'. split; [now right | exact Hl].
Qed.

Lemma drop_one_app : forall ws l more,
  Py.drop_one ws (l +++ more) = None -> Py.drop_one ws l = None.
Proof.
  induction ws as [| p ws IH]; intros l more H; simpl in *; [reflexivity |].
  destruct (Py.drop_prefix p l) as [r |] eqn:E.
  - rewrite (drop_prefix_app _ _ _ more E) in H. discriminate.
  - destruct (Py.drop_prefix p (l +++ more)); [discriminate |].
    now apply IH with more.
Qed.

Lemma lstrip_fuel_spec : forall ws,
  Forall (fun p => p <> []) ws ->
  forall fuel l, (List.length l <= fuel)%nat ->
    Py.drop_one ws (Py.lstrip_fuel ws fuel l) = None
    /\ exists pre, spaces ws pre /\ l = pre +++ Py.lstrip_fuel ws fuel l.
Proof.
  intros ws Hws. induction fuel as [| fuel IH]; intros l Hl; simpl.
  - destruct l; [| simpl in Hl; lia]. split.
    + clear Hl. induction Hws as [| p ws Hp _ IHws]; simpl; [reflexivity |].
      destruct p; [congruence | exact IHws].
    + exists []. split; [constructor | reflexivity].
  - destruct (Py.drop_one ws l) as [l' |] eqn:E.
    + destruct (drop_one_split _ _ _ E) as [p [Hin ->]].
      assert (Hp : p <> []) by (rewrite Forall_forall in Hws; now apply Hws).
      assert (Hlen : (List.length l' <= fuel)%nat).
      { rewrite length_app in Hl. unfold bytes in Hl. rewrite length_map in Hl.
        destruct p; [congruence | simpl in Hl; lia]. }
      destruct (IH l' Hlen) as [Hnone [pre [Hpre Heq]]].
      split; [exact Hnone |].
      exists (bytes p +++ pre). split; [now constructor |].
      rewrite <- app_assoc. now rewrite <- Heq.
    + split; [exact E |]. exists []. split; [constructor | reflexivity].
Qed.

Lemma whitespace_nonempty : Forall (fun p : list nat => p <> []) Py.whitespace.
Proof. unfold Py.whitespace. repeat constructor; discriminate. Qed.

Lemma whitespace_rev_nonempty :
  Forall (fun p : list nat => p <> []) (map (@rev nat) Py.whitespace).
Proof. unfold Py.whitespace. simpl. repeat constructor; discriminate. Qed.

Lemma spaces_app : forall ws a b, spaces ws a -> spaces ws b -> spaces ws (a +++ b).
Proof.
  intros ws a b Ha Hb. induction Ha as [| p l Hin _ IH]; simpl; [exact Hb |].
  rewrite <- app_assoc. now constructor.
Qed.

Lemma spaces_rev : forall ws l,
  spaces (map (@rev nat) ws) l -> spaces ws (rev l).
Proof.
  intros ws l H. induction H as [| p l Hin _ IH]; simpl; [constructor |].
  rewrite rev_app_distr. apply spaces_app; [exact IH |].
  apply in_map_iff in Hin. destruct Hin as [p0 [<- Hin0]].
  unfold bytes. rewrite <- map_rev, rev_involutive.
  rewrite <- (app_nil_r (map ascii_of_nat p0)). constructor; [exact Hin0 | constructor].
Qed.

(** [strip] removes whitespace, and only whitespace, from both ends. *)
Lemma strip_spec : forall s,
  trimmed (Py.strip s)
  /\ exists pre post,
       spaces Py.whitespace pre /\ spaces Py.whitespace post /\
       list_ascii_of_string s
       = pre +++ list_ascii_of_string (Py.strip s) +++ post.
Proof.
  intro s. unfold Py.strip, Py.lstrip_with, trimmed.
  rewrite list_ascii_of_string_of_list_ascii.
  set (l := list_ascii_of_string s).
  destruct (lstrip_fuel_spec _ whitespace_nonempty (List.length l) l (le_n _))
    as [Hlead [pre [Hpre Hl]]].
  set (L := Py.lstrip_fuel Py.whitespace (List.length l) l) in *.
  destruct (lstrip_fuel_spec _ whitespace_rev_nonempty
              (List.length (rev L)) (rev L) (le_n _))
    as [Htrail [post [Hpost HL]]].
  set (T := Py.lstrip_fuel (map (@rev nat) Py.whitespace)
              (List.length (rev L)) (rev L)) in *.
  assert (HL' : L = rev T +++ rev post).
  { rewrite <- (rev_involutive L), HL, rev_app_distr. reflexivity. }
  split; [split |].
  - apply drop_one_app with (rev post). now rewrite <- HL'.
  - now rewrite rev_involutive.
  - exists pre, (rev post). split; [exact Hpre |].
    split; [now apply spaces_rev |]. now rewrite <- HL'.
Qed.

Example strip_sample :
  Py.strip (" " ++ String "009"%char "12 34" ++ String "194"%char
              (String "160"%char (String "010"%char ""))) = "12 34".
Proof. reflexivity. Qed.

(** ** Account information *)


Section AccountInfo.

Variable repr_other : value -> string.

Let account_info := _get_account_info repr_other.

(** C8.  The account id and name come from the first root-cause entry
    alone.  Without a first entry both are absent.  With one: when its
    linked-account id is absent, null or otherwise falsy, both are
    absent, whatever the name resolves to; else the id is the text of
    the linked account without surrounding whitespace, and the name is
    what the entry resolves for it.  Hence a name never comes without an
    id. *)
Theorem account_info_from_first_cause : forall anomaly,
  ((forall first rest, root_causes_of anomaly <> PyList (first :: rest)) ->
     account_info anomaly = (PyNone, PyNone))
  /\ (forall first rest,
        root_causes_of anomaly = PyList (first :: rest) ->
        let rc := Py.or_ first (PyDict []) in
        let account_id :=
          _get_any rc [["LinkedAccount"]; ["linkedAccount"]] PyNone in
        let acct_name :=
          _get_any rc [["LinkedAccountName"]; ["linkedAccountName"]] PyNone in
        (Py.truthy account_id = false ->
           account_info anomaly = (PyNone, PyNone))
        /\ (Py.truthy account_id = true ->
              account_info anomaly
              = (PyStr (Py.strip (str repr_other account_id)), acct_name)))
  /\ (forall s, fst (account_info anomaly) = PyStr s -> trimmed s)
  /\ (snd (account_info anomaly) <> PyNone ->
        exists s, fst (account_info anomaly) = PyStr s)
  /\ (fst (account_info anomaly) = PyNone ->
        snd (account_info anomaly) = PyNone).
Proof.
  intro anomaly. unfold account_info, _get_account_info.
  fold (root_causes_of anomaly).
  destruct (root_causes_of anomaly) as [| b | z | f | s0 | [| first rest] | o];
    try (split; [reflexivity |];
         split; [discriminate |];
         split; [simpl; discriminate |];
         split; [simpl; congruence | reflexivity]).
  - set (rc := Py.or_ first (PyDict [])).
    set (account_id := _get_any rc [["LinkedAccount"]; ["linkedAccount"]] PyNone).
    split; [| split; [| split; [| split]]].
    + intro H. exfalso. now apply (H first rest).
    + intros first' rest' E. injection E as <- <-. fold rc. fold account_id.
      simpl. destruct (Py.truthy account_id); simpl; split; intro;
        try reflexivity; discriminate.
    + destruct (Py.truthy account_id); simpl; intros s H; [| discriminate].
      injection H as <-. apply strip_spec.
    + destruct (Py.truthy account_id); simpl; intro H; [eauto | congruence].
    + destruct (Py.truthy account_id); simpl; intro H;
        [discriminate | reflexivity].
Qed.

End AccountInfo.

(** A first entry with a padded id and a name; a second entry is not
    looked at. *)
Lemma account_info_from_first_cause_witness :
  let anomaly :=
    PyDict [("RootCauses",
             PyList [PyDict [("LinkedAccount", PyStr " 123456789012 ");
                             ("LinkedAccountName", PyStr "prod")];
                     PyDict [("LinkedAccount", PyStr "999")]])] in
  _get_account_info Repr.repr anomaly = (PyStr "123456789012", PyStr "prod").
Proof.
  intro anomaly.
  apply (proj1 (proj2 (account_info_from_first_cause Repr.repr anomaly))
           (PyDict [("LinkedAccount", PyStr " 123456789012 ");
                    ("LinkedAccountName", PyStr "prod")])
           [PyDict [("LinkedAccount", PyStr "999")]] eq_refl).
  reflexivity.
Defined.

Example account_info_samples :
  map (_get_account_info Repr.repr)
    [ PyDict [];
      PyDict [("rootCauses", PyList [])];
      PyDict [("RootCauses", PyStr "EC2")];
      PyDict [("RootCauses", PyList [PyDict [("LinkedAccountName", PyStr "prod")]])];
      PyDict [("RootCauses", PyList [PyDict [("LinkedAccount", PyStr "");
                                             ("LinkedAccountName", PyStr "prod")]])];
      PyDict [("rootCauses", PyList [PyDict [("linkedAccount", PyInt 42)]])] ]
  = [ (PyNone, PyNone); (PyNone, PyNone); (PyNone, PyNone); (PyNone, PyNone);
      (PyNone, PyNone); (PyStr "42", PyNone) ].
Proof. reflexivity. Qed.

(** ** The normalizer *)

Lemma truthy_or : forall a b,
  Py.truthy (Py.or_ a b) = (Py.truthy a || Py.truthy b)%bool.
Proof.
  intros a b. unfold Py.or_. destruct (Py.truthy a) eqn:E; simpl; [exact E | reflexivity].
Qed.

Lemma get_dict : forall d k, Py.get (PyDict d) k = inr (value_at d k).
Proof. reflexivity. Qed.

Lemma absent_not_usable : forall d,
  has_identifier_field d = false -> usable_identifier d = false.
Proof.
  intros d H. unfold has_identifier_field in H. unfold usable_identifier, value_at.
  destruct (Py.lookup d "AnomalyId"); [discriminate |].
  destruct (Py.lookup d "anomalyId"); [discriminate | reflexivity].
Qed.

Section Normalizer.

Variable repr_other : value -> string.
Variable json_loads : string -> raises value.

(** What the [try] block of the handler leaves in [anomaly_payload]. *)
Lemma parse_anomaly_selected : forall msg,
  parse_anomaly json_loads (PyStr msg) = selected_root (json_loads msg).
Proof.
  intro msg.
  unfold parse_anomaly, parse_anomaly_try, selected_root, usable_identifier,
    value_at.
  simpl.
  destruct (json_loads msg) as [e | parsed]; [reflexivity |]. simpl.
  destruct parsed as [| b | z | f | s | l | d]; try reflexivity.
  simpl. rewrite truthy_or.
  match goal with |- context [if ?c then ret _ else _] => destruct c end;
    [reflexivity |].
  destruct (Py.lookup d "detail") as [[| b | z | f | s | l | inner] |] eqn:E;
    simpl; try rewrite E; try reflexivity.
  simpl. rewrite truthy_or.
  match goal with |- context [if ?c then ret _ else _] => destruct c end;
    reflexivity.
Qed.

(** With no anomaly selected, the fallback payload is built. *)
Lemma render_unselected : forall msg,
  selected_root (json_loads msg) = PyNone ->
  render_message repr_other json_loads (PyStr msg)
  = inr (fallback_payload repr_other (PyStr msg)).
Proof.
  intros msg H. unfold render_message.
  rewrite parse_anomaly_selected, H. reflexivity.
Qed.

(** C1, as the code has it.  When decoding fails or gives something that
    is not an object, nothing is selected.  An object with a truthy
    identifier under either spelling is the root.  Otherwise an object
    under ["detail"] with a truthy identifier under either spelling is the
    root.  Otherwise nothing is selected. *)
Theorem root_selection : forall msg,
  ((forall v, json_loads msg <> inr v) ->
     parse_anomaly json_loads (PyStr msg) = PyNone)
  /\ (forall v, json_loads msg = inr v -> Py.is_dict v = false ->
        parse_anomaly json_loads (PyStr msg) = PyNone)
  /\ (forall d, json_loads msg = inr (PyDict d) ->
        usable_identifier d = true ->
        parse_anomaly json_loads (PyStr msg) = PyDict d)
  /\ (forall d inner, json_loads msg = inr (PyDict d) ->
        usable_identifier d = false ->
        Py.lookup d "detail" = Some (PyDict inner) ->
        usable_identifier inner = true ->
        parse_anomaly json_loads (PyStr msg) = PyDict inner)
  /\ (forall d, json_loads msg = inr (PyDict d) ->
        usable_identifier d = false ->
        (forall inner, Py.lookup d "detail" = Some (PyDict inner) ->
                       usable_identifier inner = false) ->
        parse_anomaly json_loads (PyStr msg) = PyNone).
Proof.
  intro msg. rewrite parse_anomaly_selected. unfold selected_root.
  split; [| split; [| split; [| split]]].
  - intro H. destruct (json_loads msg) as [e | v]; [reflexivity |].
    exfalso. now apply (H v).
  - intros v -> Hv. destruct v; try reflexivity; discriminate.
  - intros d -> ->. reflexivity.
  - intros d inner -> -> -> ->. reflexivity.
  - intros d -> -> H.
    destruct (Py.lookup d "detail") as [[| b | z | f | s | l | inner] |];
      try reflexivity.
    now rewrite (H inner eq_refl).
Qed.

(** C4.  A message that does not decode, or that decodes to something
    with no identifier key at the top or under ["detail"], is rendered as
    the fallback: the fixed header and one section holding the message
    text between code fences, with no attachment; and the record goes on to
    the POST with that payload. *)
Theorem fallback_when_unrecognized : forall msg,
  (forall v, json_loads msg <> inr v)
  \/ (exists v, json_loads msg = inr v /\ lacks_identifier v) ->
  render_message repr_other json_loads (PyStr msg)
  = inr (PyDict
           [("blocks",
             PyList
               [ PyDict [("type", PyStr "header");
                         ("text",
                          PyDict [("type", PyStr "plain_text");
                                  ("text", PyStr ":rotating_light: AWS Cost Anomaly Notification :rotating_light:");
                                  ("emoji", PyBool true)])];
                 PyDict [("type", PyStr "section");
                         ("text", PyDict [("type", PyStr "mrkdwn");
                                          ("text", PyStr ("```" ++ msg ++ "```"))])]
               ])])
  /\ forall record sns,
       Py.get record "Sns" = inr (PyDict sns) ->
       Py.lookup sns "Message" = Some (PyStr msg) ->
       record_payload repr_other json_loads record
       = inr (fallback_payload repr_other (PyStr msg)).
Proof.
  intros msg H.
  assert (E : selected_root (json_loads msg) = PyNone).
  { destruct H as [H | [v [Hv Hl]]].
    - destruct (json_loads msg) as [e | v]; [reflexivity |].
      exfalso. now apply (H v).
    - rewrite Hv. destruct v as [| b | z | f | s | l | d]; try reflexivity.
      destruct Hl as [Htop Hin]. simpl.
      rewrite (absent_not_usable d Htop).
      destruct (Py.lookup d "detail") as [[| b | z | f | s | l | inner] |];
        try reflexivity.
      now rewrite (absent_not_usable inner (Hin inner eq_refl)). }
  split.
  - now apply render_unselected.
  - intros record sns Hs Hm. unfold record_payload. rewrite Hs. simpl.
    assert (T : Py.truthy (PyDict sns) = true).
    { destruct sns; [discriminate | reflexivity]. }
    unfold Py.or_. rewrite T. simpl. rewrite Hm.
    now apply render_unselected.
Qed.

(** C10.  An object whose identifier values are all falsy, at the top and
    in the object under ["detail"], is not taken for an anomaly and is
    rendered as the fallback, the fixed header and one section holding
    the message text between code fences with no attachment, as an object
    without identifier keys is. *)
Theorem fallback_when_identifier_falsy : forall msg d,
  json_loads msg = inr (PyDict d) ->
  usable_identifier d = false ->
  (forall inner, Py.lookup d "detail" = Some (PyDict inner) ->
                 usable_identifier inner = false) ->
  parse_anomaly json_loads (PyStr msg) = PyNone
  /\ render_message repr_other json_loads (PyStr msg)
     = inr (PyDict
              [("blocks",
                PyList
                  [ PyDict [("type", PyStr "header");
                            ("text",
                             PyDict [("type", PyStr "plain_text");
                                     ("text", PyStr ":rotating_light: AWS Cost Anomaly Notification :rotating_light:");
                                     ("emoji", PyBool true)])];
                    PyDict [("type", PyStr "section");
                            ("text", PyDict [("type", PyStr "mrkdwn");
                                             ("text", PyStr ("```" ++ msg ++ "```"))])]
                  ])])
  /\ render_message repr_other json_loads (PyStr msg)
     = inr (fallback_payload repr_other (PyStr msg)).
Proof.
  intros msg d Hd Htop Hin.
  assert (E : selected_root (json_loads msg) = PyNone).
  { rewrite Hd. simpl. rewrite Htop.
    destruct (Py.lookup d "detail") as [[| b | z | f | s | l | inner] |];
      try reflexivity.
    now rewrite (Hin inner eq_refl). }
  split; [| split].
  - now rewrite parse_anomaly_selected.
  - rewrite (render_unselected msg E). reflexivity.
  - now apply render_unselected.
Qed.

End Normalizer.

(** The normalizer on decoded messages. *)
Lemma root_selection_witness :
  parse_anomaly Json.loads (PyStr (sq "{'detail': {'anomalyId': 'a1'}}"))
  = PyDict [("anomalyId", PyStr "a1")].
Proof.
  apply (proj1 (proj2 (proj2 (proj2
           (root_selection Json.loads (sq "{'detail': {'anomalyId': 'a1'}}")))))
           [("detail", PyDict [("anomalyId", PyStr "a1")])]
           [("anomalyId", PyStr "a1")]);
    reflexivity.
Defined.

(** C1 as stated fails: the decoded object has the key [AnomalyId], with
    an empty string, and is not taken as the root. *)
Lemma root_selection_counterexample :
  ~ (forall d,
       Json.loads (sq "{'AnomalyId': ''}") = inr (PyDict d) ->
       has_identifier_field d = true ->
       parse_anomaly Json.loads (PyStr (sq "{'AnomalyId': ''}")) = PyDict d).
Proof.
  intro H.
  specialize (H [("AnomalyId", PyStr "")] eq_refl eq_refl).
  discriminate H.
Qed.

(** A message that decodes to an object without identifier, and one
    that is not JSON. *)
Lemma fallback_when_unrecognized_witness :
  render_message Repr.repr Json.loads (PyStr (sq "{'message': 'budget exceeded'}"))
  = inr (fallback_payload Repr.repr (PyStr (sq "{'message': 'budget exceeded'}")))
  /\ render_message Repr.repr Json.loads (PyStr "AWS notification: test")
     = inr (fallback_payload Repr.repr (PyStr "AWS notification: test")).
Proof.
  split.
  - apply (fallback_when_unrecognized Repr.repr Json.loads
             (sq "{'message': 'budget exceeded'}")).
    right. exists (PyDict [("message", PyStr "budget exceeded")]).
    split; [reflexivity |]. split; [reflexivity |].
    intros inner H. discriminate H.
  - apply (fallback_when_unrecognized Repr.repr Json.loads
             "AWS notification: test").
    left. intros v H. discriminate H.
Defined.

Lemma fallback_when_identifier_falsy_witness :
  let msg :=
    sq "{'AnomalyId': '', 'anomalyId': 0, 'detail': {'AnomalyId': false, 'anomalyId': null}}" in
  render_message Repr.repr Json.loads (PyStr msg)
  = inr (PyDict
           [("blocks",
             PyList
               [ PyDict [("type", PyStr "header");
                         ("text",
                          PyDict [("type", PyStr "plain_text");
                                  ("text", PyStr ":rotating_light: AWS Cost Anomaly Notification :rotating_light:");
                                  ("emoji", PyBool true)])];
                 PyDict [("type", PyStr "section");
                         ("text", PyDict [("type", PyStr "mrkdwn");
                                          ("text", PyStr ("```" ++ msg ++ "```"))])]
               ])]).
Proof.
  intro msg.
  refine (proj1 (proj2 (fallback_when_identifier_falsy Repr.repr Json.loads msg
           [("AnomalyId", PyStr ""); ("anomalyId", PyInt 0);
            ("detail", PyDict [("AnomalyId", PyBool false);
                               ("anomalyId", PyNone)])] _ _ _))).
  - reflexivity.
  - reflexivity.
  - intros inner H. injection H as <-. reflexivity.
Defined.

(** ** The handler *)

Section HandlerProperties.

Variable repr_other : value -> string.
Variable json_loads : string -> raises value.
Variable urlopen : list request -> request -> response.

Let run := process_records repr_other json_loads urlopen.



(** C6.  Without a webhook URL in the environment (the variable unset
    or empty) the handler raises at once: the event has been printed, the
    complaint is on standard error, no request has been made, and nothing
    of this depends on the records of the event, on the decoder or on the
    network. *)
Theorem missing_webhook_is_fatal : forall event context w,
  environ w "SLACK_WEBHOOK_URL" = None
  \/ environ w "SLACK_WEBHOOK_URL" = Some "" ->
  handler repr_other json_loads urlopen event context w
  = (inl (RuntimeError "SLACK_WEBHOOK_URL not set"),
     {| environ := environ w; stdout := stdout w +++ [event];
        stderr := stderr w
                  +++ ["Missing SLACK_WEBHOOK_URL environment variable"];
        posts := posts w |}).
Proof.
  intros event context w [H | H];
    unfold handler, pbind, effect, raise; simpl; rewrite H; reflexivity.
Qed.

(** The handler once the webhook URL is known and the records are a
    list. *)
Lemma handler_runs_records : forall event context w webhook_url found items,
  environ w "SLACK_WEBHOOK_URL" = Some webhook_url ->
  webhook_url <> "" ->
  Py.get event "Records" = inr found ->
  Py.or_ found (PyList []) = PyList items ->
  handler repr_other json_loads urlopen event context w
  = match run webhook_url items (print_event event w) with
    | (inl e, w') => (inl e, w')
    | (inr _, w') => (inr (status_ok (List.length items)), w')
    end.
Proof.
  intros event context w webhook_url found items Henv Hurl Hget Hor.
  unfold handler, pbind, effect, lift, pure. simpl. rewrite Henv.
  destruct webhook_url as [| a url]; [congruence |].
  rewrite Hget, Hor. fold run. reflexivity.
Qed.


End HandlerProperties.

Lemma missing_webhook_is_fatal_witness :
  handler Repr.repr Json.loads always_delivered
    (PyDict [("Records", PyList [sns_record "anything"])]) PyNone
    (fresh_world None)
  = (inl (RuntimeError "SLACK_WEBHOOK_URL not set"),
     {| environ := environ (fresh_world None);
        stdout := [PyDict [("Records", PyList [sns_record "anything"])]];
        stderr := ["Missing SLACK_WEBHOOK_URL environment variable"];
        posts := [] |}).
Proof.
  apply (missing_webhook_is_fatal Repr.repr Json.loads always_delivered
           (PyDict [("Records", PyList [sns_record "anything"])]) PyNone
           (fresh_world None)).
  left. reflexivity.
Defined.



(** ** Naming conventions and the detail wrapper *)

Ltac by_field_cases a :=
  destruct a as [id start end_ impact causes link];
  destruct id, start, end_, impact as [[total pct] |], causes, link;
  try destruct total; try destruct pct;
  reflexivity.

Lemma get_any_convention_id : forall a default,
  _get_any (encode TitleCase a) id_paths default
  = _get_any (encode CamelCase a) id_paths default.
Proof. intros a default. by_field_cases a. Qed.

Lemma get_any_convention_total : forall a default,
  _get_any (encode TitleCase a) total_paths default
  = _get_any (encode CamelCase a) total_paths default.
Proof. intros a default. by_field_cases a. Qed.

Lemma get_any_convention_pct : forall a default,
  _get_any (encode TitleCase a) pct_paths default
  = _get_any (encode CamelCase a) pct_paths default.
Proof. intros a default. by_field_cases a. Qed.

Lemma get_any_convention_start : forall a default,
  _get_any (encode TitleCase a) [["AnomalyStartDate"]; ["anomalyStartDate"]] default
  = _get_any (encode CamelCase a) [["AnomalyStartDate"]; ["anomalyStartDate"]] default.
Proof. intros a default. by_field_cases a. Qed.

Lemma get_any_convention_end : forall a default,
  _get_any (encode TitleCase a) [["AnomalyEndDate"]; ["anomalyEndDate"]] default
  = _get_any (encode CamelCase a) [["AnomalyEndDate"]; ["anomalyEndDate"]] default.
Proof. intros a default. by_field_cases a. Qed.

Lemma get_any_convention_link : forall a default,
  _get_any (encode TitleCase a) [["anomalyDetailsLink"]; ["AnomalyDetailsLink"]] default
  = _get_any (encode CamelCase a) [["anomalyDetailsLink"]; ["AnomalyDetailsLink"]] default.
Proof. intros a default. by_field_cases a. Qed.

Ltac by_cause_cases a :=
  destruct a as [id start end_ impact causes link];
  destruct id, start, end_, impact as [[total pct] |], link;
  try destruct total; try destruct pct;
  destruct causes as [[| [service account name region usage] rest] |];
  try reflexivity;
  destruct service, account, name, region, usage;
  reflexivity.

Lemma root_cause_fields_convention : forall repr_other a,
  root_cause_fields repr_other (encode TitleCase a)
  = root_cause_fields repr_other (encode CamelCase a).
Proof. intros repr_other a. by_cause_cases a. Qed.

Lemma account_info_convention : forall repr_other a,
  _get_account_info repr_other (encode TitleCase a)
  = _get_account_info repr_other (encode CamelCase a).
Proof. intros repr_other a. by_cause_cases a. Qed.

Lemma truthy_identifier_found : forall c a,
  Py.truthy (_get_any (encode c a) id_paths PyNone) = Py.truthy (identifier a).
Proof.
  intros c a. destruct c;
    destruct a as [id start end_ impact causes link];
    destruct id as [v |], start, end_, impact as [[total pct] |], causes, link;
    try destruct total; try destruct pct;
    try reflexivity; destruct v; reflexivity.
Qed.

Lemma selected_root_encode : forall c a,
  Py.truthy (identifier a) = true ->
  selected_root (inr (encode c a)) = encode c a
  /\ Py.truthy (encode c a) = true.
Proof.
  intros c a. destruct a as [id start end_ impact causes link].
  destruct id as [v |]; [| discriminate]. unfold identifier. simpl. intro H.
  unfold encode, selected_root, usable_identifier, value_at.
  destruct c, start, end_, impact, causes, link; simpl; rewrite H; simpl;
    split; reflexivity.
Qed.

Lemma usable_when_resolved : forall d,
  Py.truthy (_get_any (PyDict d) id_paths PyNone) = true ->
  usable_identifier d = true.
Proof.
  intros d. unfold usable_identifier, value_at, id_paths, _get_any, _safe_get.
  simpl.
  destruct (Py.lookup d "AnomalyId") as [[| b | z | f | s | l | o] |];
    simpl; try (intro H; rewrite H; reflexivity);
    destruct (Py.lookup d "anomalyId") as [[| b' | z' | f' | s' | l' | o'] |];
    simpl; intro H; try rewrite H; try reflexivity; try discriminate.
Qed.

(** Lookups in payloads with the same field values. *)

Lemma safe_get_key : forall d k, _safe_get (PyDict d) [k] PyNone = value_at d k.
Proof.
  intros d k. unfold _safe_get, value_at. simpl.
  destruct (Py.lookup d k) as [v |]; [destruct v |]; reflexivity.
Qed.

Lemma safe_get_key_other : forall v k,
  Py.is_dict v = false -> _safe_get v [k] PyNone = PyNone.
Proof. intros v k H. destruct v; try discriminate H; reflexivity. Qed.

Lemma safe_get_nested : forall d a b,
  _safe_get (PyDict d) [a; b] PyNone = _safe_get (value_at d a) [b] PyNone.
Proof. reflexivity. Qed.

Lemma get_any_two : forall v p q default,
  _get_any v [p; q] default
  = first_of (_safe_get v p PyNone) (_safe_get v q PyNone) default.
Proof. reflexivity. Qed.

Lemma first_of_left : forall x default, first_of x PyNone default = first_of PyNone x default.
Proof. intros x default. unfold first_of. simpl. destruct (Py.is_none x) eqn:E; reflexivity. Qed.

Lemma same_values_lookup : forall keys d d' title camel default,
  same_values keys d d' -> In (title, camel) keys ->
  _get_any (PyDict d) [[title]; [camel]] default
  = _get_any (PyDict d') [[title]; [camel]] default
  /\ _get_any (PyDict d) [[camel]; [title]] default
     = _get_any (PyDict d') [[camel]; [title]] default.
Proof.
  intros keys d d' title camel default H Hin.
  destruct (H title camel Hin) as [Hv [Hc Ht]].
  rewrite !get_any_two, !safe_get_key, Hv, Hc, Ht.
  split; [apply first_of_left | symmetry; apply first_of_left].
Qed.

Lemma same_object_lookup : forall keys v v' title camel default,
  same_object keys v v' -> In (title, camel) keys ->
  _get_any v [[title]; [camel]] default
  = _get_any v' [[title]; [camel]] default.
Proof.
  intros keys v v' title camel default H Hin.
  destruct v as [| b | z | f | s | l | d];
    try (destruct H as [<- _]; reflexivity).
  destruct v' as [| b | z | f | s | l | d'];
    try (destruct H as [_ H]; discriminate H).
  exact (proj1 (same_values_lookup keys d d' title camel default H Hin)).
Qed.

Lemma or_dict : forall v, Py.or_ v (PyDict []) = match v with
                                                  | PyDict _ => v
                                                  | _ => Py.or_ v (PyDict [])
                                                  end.
Proof. intros [| b | z | f | s | l | [| kv d]]; reflexivity. Qed.

Lemma same_object_or : forall keys v v',
  same_object keys v v' -> same_object keys (Py.or_ v (PyDict [])) (Py.or_ v' (PyDict [])).
Proof.
  intros keys v v' H.
  destruct v as [| b | z | f | s | l | d];
    try (destruct H as [<- _]; unfold Py.or_;
         match goal with
         | |- context [if ?c then _ else _] => destruct c
         end; simpl; try (split; reflexivity);
         intros title camel _; repeat split; reflexivity).
  destruct v' as [| b | z | f | s | l | d'];
    try (destruct H as [_ H]; discriminate H).
  rewrite (or_dict (PyDict d)), (or_dict (PyDict d')). exact H.
Qed.

Lemma in_scalar_id : In ("AnomalyId", "anomalyId") scalar_keys.
Proof. simpl. tauto. Qed.

Lemma impact_lookup_same : forall d d' title camel default,
  same_anomaly d d' -> In (title, camel) impact_keys ->
  _get_any (PyDict d) [["Impact"; title]; ["impact"; camel]] default
  = _get_any (PyDict d') [["Impact"; title]; ["impact"; camel]] default.
Proof.
  intros d d' title camel default [_ [Hi [Hc [Ht _]]]] Hin.
  rewrite !get_any_two, !safe_get_nested, Hc, Ht.
  change (_safe_get PyNone [camel] PyNone) with PyNone.
  change (_safe_get PyNone [title] PyNone) with PyNone.
  rewrite first_of_left. f_equal.
  destruct (value_at d "Impact") as [| b | z | f | s | l | i];
    try (destruct Hi as [<- _]; reflexivity).
  destruct (value_at d' "impact") as [| b | z | f | s | l | i'];
    try (destruct Hi as [_ Hi]; discriminate Hi).
  rewrite !safe_get_key. exact (proj1 (Hi title camel Hin)).
Qed.

Lemma root_causes_same : forall d d',
  same_anomaly d d' ->
  root_causes_of (PyDict d) = root_causes_of (PyDict d')
  \/ exists first rest first' rest',
       root_causes_of (PyDict d) = PyList (first :: rest)
       /\ root_causes_of (PyDict d') = PyList (first' :: rest')
       /\ same_object cause_keys first first'.
Proof.
  intros d d' [_ [_ [_ [_ [Hr [Hc Ht]]]]]].
  unfold root_causes_of, causes_paths.
  rewrite !get_any_two, !safe_get_key, Hc, Ht, first_of_left.
  destruct (value_at d "RootCauses") as [| b | z | f | s | l | o];
    try (destruct Hr as [<- _]; left; reflexivity).
  destruct (value_at d' "rootCauses") as [| b | z | f | s | l' | o];
    try (destruct Hr as [_ Hr]; discriminate Hr).
  simpl in Hr. destruct Hr as [| first first' rest rest' Hf _].
  - left. reflexivity.
  - right. exists first, rest, first', rest'. repeat split. exact Hf.
Qed.

Section Conventions.

Variable repr_other : value -> string.
Variable json_loads : string -> raises value.

(** With a truthy identifier the raw text plays no part. *)
Lemma build_payload_ignores_raw : forall anomaly raw raw',
  Py.truthy anomaly = true ->
  Py.truthy (_get_any anomaly id_paths PyNone) = true ->
  _build_payload repr_other anomaly raw = _build_payload repr_other anomaly raw'.
Proof.
  intros anomaly raw raw' H1 H2. unfold _build_payload.
  rewrite H1, H2. reflexivity.
Qed.

Lemma build_payload_convention : forall a raw raw',
  Py.truthy (identifier a) = true ->
  _build_payload repr_other (encode TitleCase a) raw
  = _build_payload repr_other (encode CamelCase a) raw'.
Proof.
  intros a raw raw' H. unfold _build_payload.
  rewrite !truthy_identifier_found, H.
  rewrite (proj2 (selected_root_encode TitleCase a H)).
  rewrite (proj2 (selected_root_encode CamelCase a H)).
  simpl andb. cbv iota.
  unfold _build_blocks_for_anomaly.
  rewrite !get_any_convention_id, !get_any_convention_total,
    !get_any_convention_pct, !get_any_convention_start,
    !get_any_convention_end, !get_any_convention_link,
    root_cause_fields_convention, account_info_convention.
  reflexivity.
Qed.

Lemma root_cause_fields_same : forall d d',
  same_anomaly d d' ->
  root_cause_fields repr_other (PyDict d)
  = root_cause_fields repr_other (PyDict d').
Proof.
  intros d d' H. unfold root_cause_fields.
  fold (root_causes_of (PyDict d)). fold (root_causes_of (PyDict d')).
  destruct (root_causes_same d d' H)
    as [-> | [first [rest [first' [rest' [-> [-> Hf]]]]]]]; [reflexivity |].
  pose proof (same_object_or _ _ _ Hf) as Ho.
  rewrite (same_object_lookup cause_keys _ _ "Service" "service" PyNone Ho
             ltac:(simpl; tauto)).
  rewrite (same_object_lookup cause_keys _ _ "Region" "region" PyNone Ho
             ltac:(simpl; tauto)).
  rewrite (same_object_lookup cause_keys _ _ "UsageType" "usageType" PyNone Ho
             ltac:(simpl; tauto)).
  reflexivity.
Qed.

Lemma account_info_same : forall d d',
  same_anomaly d d' ->
  _get_account_info repr_other (PyDict d)
  = _get_account_info repr_other (PyDict d').
Proof.
  intros d d' H. unfold _get_account_info.
  fold (root_causes_of (PyDict d)). fold (root_causes_of (PyDict d')).
  destruct (root_causes_same d d' H)
    as [-> | [first [rest [first' [rest' [-> [-> Hf]]]]]]]; [reflexivity |].
  pose proof (same_object_or _ _ _ Hf) as Ho.
  rewrite (same_object_lookup cause_keys _ _ "LinkedAccount" "linkedAccount"
             PyNone Ho ltac:(simpl; tauto)).
  rewrite (same_object_lookup cause_keys _ _ "LinkedAccountName"
             "linkedAccountName" PyNone Ho ltac:(simpl; tauto)).
  reflexivity.
Qed.

Lemma identifier_same : forall d d',
  same_anomaly d d' ->
  Py.truthy (value_at d "AnomalyId") = true ->
  Py.truthy (_get_any (PyDict d) id_paths PyNone) = true
  /\ Py.truthy (_get_any (PyDict d') id_paths PyNone) = true
  /\ usable_identifier d = true
  /\ usable_identifier d' = true
  /\ Py.truthy (PyDict d) = true
  /\ Py.truthy (PyDict d') = true.
Proof.
  intros d d' [Hs _] Hid.
  destruct (Hs _ _ in_scalar_id) as [Hv [Hc Ht]].
  assert (Hn : Py.is_none (value_at d "AnomalyId") = false).
  { destruct (value_at d "AnomalyId"); try reflexivity; discriminate Hid. }
  unfold id_paths. rewrite !get_any_two, !safe_get_key.
  unfold usable_identifier. rewrite Ht, Hc, <- Hv.
  unfold first_of. rewrite Hn. simpl Py.is_none. cbv iota.
  rewrite ?Hn, Hid. simpl orb.
  repeat split.
  - unfold value_at in Hid. destruct d; [discriminate Hid | reflexivity].
  - rewrite Hv in Hid. unfold value_at in Hid.
    destruct d'; [discriminate Hid | reflexivity].
Qed.

(** With the same field values the two spellings build the same
    payload. *)
Lemma build_payload_same : forall d d' raw raw',
  same_anomaly d d' ->
  Py.truthy (value_at d "AnomalyId") = true ->
  _build_payload repr_other (PyDict d) raw
  = _build_payload repr_other (PyDict d') raw'.
Proof.
  intros d d' raw raw' H Hid.
  destruct (identifier_same d d' H Hid) as [Hi [Hi' [_ [_ [Hd Hd']]]]].
  unfold _build_payload. rewrite Hi, Hi', Hd, Hd'. simpl andb. cbv iota.
  unfold _build_blocks_for_anomaly, total_paths, pct_paths, id_paths.
  destruct H as [Hs Hrest] eqn:EH.
  assert (H' : same_anomaly d d') by (split; assumption).
  rewrite (impact_lookup_same d d' "TotalImpact" "totalImpact" PyNone H'
             ltac:(simpl; tauto)).
  rewrite (impact_lookup_same d d' "TotalImpactPercentage"
             "totalImpactPercentage" PyNone H' ltac:(simpl; tauto)).
  rewrite (proj1 (same_values_lookup scalar_keys d d' "AnomalyStartDate"
                    "anomalyStartDate" PyNone Hs ltac:(simpl; tauto))).
  rewrite (proj1 (same_values_lookup scalar_keys d d' "AnomalyEndDate"
                    "anomalyEndDate" PyNone Hs ltac:(simpl; tauto))).
  rewrite (proj1 (same_values_lookup scalar_keys d d' "AnomalyId"
                    "anomalyId" PyNone Hs ltac:(simpl; tauto))).
  rewrite (proj2 (same_values_lookup scalar_keys d d' "AnomalyDetailsLink"
                    "anomalyDetailsLink" (PyStr default_console_url) Hs
                    ltac:(simpl; tauto))).
  rewrite (root_cause_fields_same d d' H'), (account_info_same d d' H').
  reflexivity.
Qed.

(** C7, as the code has it.  Two messages that decode to objects with the
    same field values, one spelled in capitalized keys and the other in
    lower-camel keys, whatever the order of their keys and whatever other
    keys they hold, are rendered to the same payload when the identifier
    is truthy; so are, in particular, the two spellings of one record of
    field values.  A message that decodes to an object whose identifier
    resolves to a truthy value is rendered to the same payload as a
    message that decodes to a wrapper holding that object under
    ["detail"] and no usable identifier of its own. *)
Theorem rendering_by_convention_and_wrapper :
  (forall d d' msg_title msg_camel,
     json_loads msg_title = inr (PyDict d) ->
     json_loads msg_camel = inr (PyDict d') ->
     same_anomaly d d' ->
     Py.truthy (value_at d "AnomalyId") = true ->
     render_message repr_other json_loads (PyStr msg_title)
     = render_message repr_other json_loads (PyStr msg_camel))
  /\ (forall a msg_title msg_camel,
        json_loads msg_title = inr (encode TitleCase a) ->
        json_loads msg_camel = inr (encode CamelCase a) ->
        Py.truthy (identifier a) = true ->
        render_message repr_other json_loads (PyStr msg_title)
        = render_message repr_other json_loads (PyStr msg_camel))
  /\ (forall root wrapper msg_flat msg_nested,
        json_loads msg_flat = inr (PyDict root) ->
        json_loads msg_nested = inr (PyDict wrapper) ->
        Py.truthy (_get_any (PyDict root) id_paths PyNone) = true ->
        Py.lookup wrapper "detail" = Some (PyDict root) ->
        usable_identifier wrapper = false ->
        render_message repr_other json_loads (PyStr msg_flat)
        = render_message repr_other json_loads (PyStr msg_nested)).
Proof.
  split; [| split].
  - intros d d' msg_title msg_camel Ht Hc Hsame Hid. unfold render_message.
    rewrite !parse_anomaly_selected, Ht, Hc.
    destruct (identifier_same d d' Hsame Hid) as [_ [_ [Hu [Hu' _]]]].
    unfold selected_root. rewrite Hu, Hu'.
    now apply build_payload_same.
  - intros a msg_title msg_camel Ht Hc Hid. unfold render_message.
    rewrite !parse_anomaly_selected, Ht, Hc.
    rewrite (proj1 (selected_root_encode TitleCase a Hid)).
    rewrite (proj1 (selected_root_encode CamelCase a Hid)).
    now apply build_payload_convention.
  - intros root wrapper msg_flat msg_nested Hf Hn Hid Hd Hw.
    unfold render_message. rewrite !parse_anomaly_selected, Hf, Hn.
    pose proof (usable_when_resolved root Hid) as Hu.
    unfold selected_root. rewrite Hu, Hw, Hd, Hu.
    apply build_payload_ignores_raw; [| exact Hid].
    destruct root; [discriminate Hu | reflexivity].
Qed.

End Conventions.

(** The example of the specification against its lower-camel spelling in
    another key order and with one more field; the example in both
    spellings; and the example wrapped. *)
Lemma rendering_by_convention_and_wrapper_witness :
  render_message Repr.repr Json.loads (PyStr sample_message)
  = render_message Repr.repr Json.loads (PyStr sample_camel_reordered)
  /\ render_message Repr.repr Json.loads (PyStr sample_title)
     = render_message Repr.repr Json.loads (PyStr sample_camel)
  /\ render_message Repr.repr Json.loads (PyStr sample_title)
     = render_message Repr.repr Json.loads
         (PyStr (sq "{'source':'aws.ce','detail':" ++ sample_title ++ "}")).
Proof.
  split; [| split].
  - eapply (proj1 (rendering_by_convention_and_wrapper Repr.repr Json.loads)
              _ _ sample_message sample_camel_reordered);
      [vm_compute; reflexivity | vm_compute; reflexivity | | reflexivity].
    split; [| split; [| split; [| split; [| split; [| split]]]]];
      try reflexivity.
    + intros title camel Hin. simpl in Hin.
      repeat (destruct Hin as [Hin | Hin];
              [injection Hin as <- <-; repeat split |]).
      destruct Hin.
    + intros title camel Hin. simpl in Hin.
      repeat (destruct Hin as [Hin | Hin];
              [injection Hin as <- <-; repeat split |]).
      destruct Hin.
    + constructor; [| constructor].
      intros title camel Hin. simpl in Hin.
      repeat (destruct Hin as [Hin | Hin];
              [injection Hin as <- <-; repeat split |]).
      destruct Hin.
  - apply (proj1 (proj2
             (rendering_by_convention_and_wrapper Repr.repr Json.loads))
             sample_anomaly sample_title sample_camel);
      vm_compute; reflexivity.
  - eapply (proj2 (proj2
              (rendering_by_convention_and_wrapper Repr.repr Json.loads))
              _ _ sample_title
              (sq "{'source':'aws.ce','detail':" ++ sample_title ++ "}"));
      vm_compute; reflexivity.
Defined.

(** C7 as stated fails without an identifier: the two spellings of a
    start date alone are both rendered as the fallback, each around its
    own text. *)
Lemma convention_counterexample :
  ~ (forall a msg_title msg_camel,
       Json.loads msg_title = inr (encode TitleCase a) ->
       Json.loads msg_camel = inr (encode CamelCase a) ->
       render_message Repr.repr Json.loads (PyStr msg_title)
       = render_message Repr.repr Json.loads (PyStr msg_camel)).
Proof.
  intro H.
  specialize (H {| field_id := None; field_start := Some (PyStr "2025-11-01");
                   field_end := None; field_impact := None;
                   field_causes := None; field_link := None |}
                (sq "{'AnomalyStartDate':'2025-11-01'}")
                (sq "{'anomalyStartDate':'2025-11-01'}")
                eq_refl eq_refl).
  vm_compute in H. discriminate H.
Qed.

(** ** Totality of the rendering *)

Section Totality.

Variable repr_other : value -> string.

(** Rendering raises nothing but the [OverflowError] of a number
    format, and nothing when both impact fields can be formatted. *)
Lemma build_payload_total : forall anomaly raw,
  formattable (_get_any anomaly total_paths PyNone) ->
  formattable (_get_any anomaly pct_paths PyNone) ->
  exists payload, _build_payload repr_other anomaly raw = inr payload.
Proof.
  intros anomaly raw Ht Hp. unfold _build_payload.
  destruct (Py.truthy anomaly && Py.truthy (_get_any anomaly id_paths PyNone))%bool;
    [| eexists; reflexivity].
  unfold _build_blocks_for_anomaly, formattable in *.
  destruct (Py.as_number (_get_any anomaly total_paths PyNone)) as [x |];
    [destruct Ht as [t Ht]; rewrite Ht |];
    (destruct (Py.as_number (_get_any anomaly pct_paths PyNone)) as [y |];
     [destruct Hp as [u Hp]; rewrite Hp |]);
    unfold bind, ret;
    destruct (_get_account_info repr_other anomaly);
    eexists; reflexivity.
Qed.

Lemma formattable_unless_huge : forall v,
  (forall z, Py.as_number v = Some (Py.NInt z) ->
             exists f, Py.float_of_int z = inr f) ->
  formattable v.
Proof.
  intros v H. unfold formattable.
  destruct (Py.as_number v) as [[z | f] |] eqn:E; [| eexists; reflexivity | exact I].
  destruct (H z eq_refl) as [f Hf]. simpl. rewrite Hf. eexists; reflexivity.
Qed.

End Totality.

(** C9 fails on the code: a message with an identifier whose total impact
    is the integer 10^400 decodes, is taken for an anomaly, and makes the
    rendering raise [OverflowError] when the amount is formatted; the
    handler raises it with no request made, whatever the network. *)
Theorem huge_impact_aborts_rendering : forall repr_other urlopen,
  render_message repr_other Json.loads (PyStr huge_impact_message)
  = inl OverflowError
  /\ handler repr_other Json.loads urlopen
       (PyDict [("Records", PyList [sns_record huge_impact_message])]) PyNone
       (fresh_world (Some sample_hook))
     = (inl OverflowError,
        {| environ := environ (fresh_world (Some sample_hook));
           stdout := [PyDict [("Records", PyList [sns_record huge_impact_message])]];
           stderr := []; posts := [] |}).
Proof.
  intros repr_other urlopen. split; vm_compute; reflexivity.
Qed.

(** ** The example of the specification, end to end *)

Example sample_rendered :
  render_message Repr.repr Json.loads (PyStr sample_message)
  = inr
      (PyDict
         [("attachments",
           PyList
             [PyDict
                [("color", PyStr "#C62828");
                 ("blocks",
                  PyList
                    [PyDict
                       [("type", PyStr "header");
                        ("text",
                         PyDict
                           [("type", PyStr "plain_text");
                            ("text", PyStr ":rotating_light: AWS Cost Anomaly Detected: HIGH :rotating_light:");
                            ("emoji", PyBool true)])];
                     PyDict
                       [("type", PyStr "section");
                        ("text", PyDict [("type", PyStr "mrkdwn");
                                         ("text", PyStr "Account: 123456789012")]);
                        ("fields",
                         PyList
                           [mrkdwn ("*Window*" ++ nl ++ "2025-11-01 → 2025-11-02");
                            mrkdwn ("*Estimated impact*" ++ nl ++ "$150.50 USD");
                            mrkdwn ("*Impact %*" ++ nl ++ "12.30%");
                            mrkdwn ("*Root cause*" ++ nl ++ "Service: EC2 | Region: us-east-1");
                            mrkdwn ("*Anomaly ID*" ++ nl ++ "a1")])];
                     PyDict
                       [("type", PyStr "actions");
                        ("elements",
                         PyList
                           [PyDict
                              [("type", PyStr "button");
                               ("text", PyDict [("type", PyStr "plain_text");
                                                ("text", PyStr "Open in AWS Console")]);
                               ("url", PyStr default_console_url);
                               ("style", PyStr "primary")]])];
                     PyDict
                       [("type", PyStr "context");
                        ("elements",
                         PyList [mrkdwn "Sent by Cost Anomaly Detection → SNS → Lambda → Slack"])]])]])]).
Proof. vm_compute. reflexivity. Qed.

Example sample_delivered :
  fst (handler Repr.repr Json.loads always_delivered
         (PyDict [("Records", PyList [sns_record sample_message])]) PyNone
         (fresh_world (Some sample_hook)))
  = inr (status_ok 1).
Proof. vm_compute. reflexivity. Qed.

Example no_records :
  handler Repr.repr Json.loads always_delivered (PyDict [("Records", PyList [])])
    PyNone (fresh_world (Some sample_hook))
  = (inr (status_ok 0),
     {| environ := environ (fresh_world (Some sample_hook));
        stdout := [PyDict [("Records", PyList [])]]; stderr := []; posts := [] |}).
Proof. reflexivity. Qed.

Example format_date_samples :
  map _format_date
    [PyStr "2025-11-04T00:00:00Z"; PyStr "2025-11-04"; PyInt 20251104; PyNone;
     PyStr "T"; PyStr ""]
  = [PyStr "2025-11-04"; PyStr "2025-11-04"; PyInt 20251104; PyNone;
     PyStr ""; PyStr ""].
Proof. reflexivity. Qed.

(** A message whose impact is NaN decodes to a float, is classified and
    formatted as a number, and comes out in the colour of LOW. *)
Example nan_impact_rendered_low :
  attachment_color
    (render_message Repr.repr Json.loads
       (PyStr (sq "{'AnomalyId':'a1','Impact':{'TotalImpact':NaN}}")))
  = Some (PyStr (color LOW)).
Proof. vm_compute. reflexivity. Qed.

(** * Further properties of the module *)

(** ** Dates *)

Lemma before_char_prefix : forall c s,
  exists rest,
    s = Py.before_char c s ++ rest
    /\ (rest = "" \/ exists rest', rest = String c rest').
Proof.
  intros c s. induction s as [| a s [rest [IH Hrest]]]; simpl.
  - exists "". split; [reflexivity | now left].
  - destruct (Ascii.eqb a c) eqn:E.
    + apply Ascii.eqb_eq in E. subst a.
      exists (String c s). split; [reflexivity | right; eauto].
    + exists rest. simpl. split; [now rewrite <- IH | exact Hrest].
Qed.

Lemma before_char_free : forall c s,
  Py.contains_char c (Py.before_char c s) = false.
Proof.
  intros c s. induction s as [| a s IH]; simpl; [reflexivity |].
  destruct (Ascii.eqb a c) eqn:E; simpl; [reflexivity |]. now rewrite E.
Qed.

(** X1.  [_format_date] keeps of a text exactly what comes before its
    first ["T"]: the text is the result, which has no ["T"], followed
    either by nothing or by a ["T"] and the rest; anything that is not
    text comes back as it is; formatting twice changes nothing more. *)
Theorem format_date_date_only : forall v,
  _format_date (_format_date v) = _format_date v
  /\ match v with
     | PyStr s =>
         exists t rest,
           _format_date v = PyStr t /\ s = t ++ rest
           /\ Py.contains_char "T" t = false
           /\ (rest = "" \/ exists rest', rest = String "T" rest')
     | _ => _format_date v = v
     end.
Proof.
  intro v. destruct v as [| b | z | f | s | l | d]; try (split; reflexivity).
  unfold _format_date at 2 3. unfold _format_date at 2.
  destruct (Py.contains_char "T" s) eqn:E.
  - split.
    + unfold _format_date. now rewrite before_char_free.
    + destruct (before_char_prefix "T" s) as [rest [Hrest Hhead]].
      exists (Py.before_char "T" s), rest.
      repeat split; [exact Hrest | apply before_char_free | exact Hhead].
  - split.
    + unfold _format_date. now rewrite E.
    + exists s, "". repeat split; [| exact E | now left].
      clear. induction s; simpl; [reflexivity | now f_equal].
Qed.

(** ** Composition of the lookups *)

Lemma safe_get_here : forall d, _safe_get d [] PyNone = d.
Proof. intro d. destruct d; reflexivity. Qed.

Lemma safe_get_from_none : forall path, _safe_get PyNone path PyNone = PyNone.
Proof. intros [| k path]; reflexivity. Qed.

Lemma safe_get_not_dict : forall d k path,
  Py.is_dict d = false -> _safe_get d (k :: path) PyNone = PyNone.
Proof. intros d k path H. destruct d; try discriminate H; reflexivity. Qed.

(** X2.  Looking up a path in two stretches is looking it up whole: the
    object found at the end of the first stretch is where the second
    starts, and a first stretch that finds nothing leaves nothing to
    find. *)
Theorem safe_get_composes : forall before rest d,
  _safe_get d (before +++ rest) PyNone
  = _safe_get (_safe_get d before PyNone) rest PyNone.
Proof.
  induction before as [| k before IH]; intros rest d.
  - simpl. now rewrite safe_get_here.
  - destruct (Py.is_dict d) eqn:E.
    + destruct d as [| b | z | f | s | l | o]; try discriminate E.
      change (_safe_get (PyDict o) ((k :: before) +++ rest) PyNone)
        with (_safe_get (value_at o k) (before +++ rest) PyNone).
      change (_safe_get (PyDict o) (k :: before) PyNone)
        with (_safe_get (value_at o k) before PyNone).
      apply IH.
    + simpl. rewrite !(safe_get_not_dict d k _ E).
      now rewrite safe_get_from_none.
Qed.

(** X3.  Candidate paths listed one after the other behave as two lists
    in sequence: the second list is consulted only for the default of the
    first. *)
Theorem get_any_appends : forall d first second default,
  _get_any d (first +++ second) default
  = _get_any d first (_get_any d second default).
Proof.
  intros d first second default.
  induction first as [| p first IH]; simpl; [reflexivity |].
  destruct (Py.is_none (_safe_get d p PyNone)); [exact IH | reflexivity].
Qed.

Lemma safe_get_not_none : forall d path default,
  default <> PyNone -> _safe_get d path default <> PyNone.
Proof.
  intros d path default H. unfold _safe_get.
  revert d. induction path as [| k path IH]; intro d; simpl.
  - destruct d; simpl; congruence.
  - destruct d as [| b | z | f | s | l | o]; simpl; try exact H.
    apply IH.
Qed.

Lemma get_any_not_none : forall d paths default,
  default <> PyNone -> _get_any d paths default <> PyNone.
Proof.
  intros d paths default H. induction paths as [| p paths IH]; simpl; [exact H |].
  destruct (Py.is_none (_safe_get d p PyNone)) eqn:E; [exact IH |].
  now apply is_none_false.
Qed.

(** X4.  A lookup gives null only when its default is null: with any
    other default, neither [_safe_get] nor [_get_any] returns null,
    whatever the object and the paths. *)
Theorem lookups_null_only_by_default : forall d path paths default,
  default <> PyNone ->
  _safe_get d path default <> PyNone /\ _get_any d paths default <> PyNone.
Proof.
  intros d path paths default H. split.
  - now apply safe_get_not_none.
  - now apply get_any_not_none.
Qed.

Lemma lookups_null_only_by_default_witness :
  _safe_get (PyDict [("anomalyDetailsLink", PyNone)]) ["anomalyDetailsLink"]
    (PyStr default_console_url) <> PyNone
  /\ _get_any (PyDict [("anomalyDetailsLink", PyNone)])
       [["anomalyDetailsLink"]; ["AnomalyDetailsLink"]]
       (PyStr default_console_url) <> PyNone.
Proof.
  apply (lookups_null_only_by_default _ _ _ (PyStr default_console_url)).
  discriminate.
Defined.

(** ** Severity grows with the impact *)

(** X14.  The classifier is monotone: of two amounts with rational
    values, the larger never gets the lower tier. *)
Theorem severity_monotone : forall x y qx qy,
  Py.number_value x = Py.Finite qx ->
  Py.number_value y = Py.Finite qy ->
  (qx <= qy)%Q ->
  (tier_rank (_get_severity_details (Some x))
   <= tier_rank (_get_severity_details (Some y)))%nat.
Proof.
  intros x y qx qy Hx Hy Hle.
  destruct (gt_finite x qx 100 Hx) as [Gx100 Lx100].
  destruct (gt_finite x qx 50 Hx) as [Gx50 Lx50].
  destruct (gt_finite y qy 100 Hy) as [Gy100 Ly100].
  destruct (gt_finite y qy 50 Hy) as [Gy50 Ly50].
  unfold _get_severity_details.
  destruct (Py.gt y 100) eqn:Ey100.
  - destruct (Py.gt x 100); [| destruct (Py.gt x 50)]; vm_compute; lia.
  - pose proof (proj1 Ly100 eq_refl) as Ky.
    destruct (Py.gt x 100) eqn:Ex100.
    + exfalso. apply (Qlt_not_le _ _ (proj1 Gx100 eq_refl)).
      now apply Qle_trans with qy.
    + destruct (Py.gt y 50) eqn:Ey50.
      * destruct (Py.gt x 50); vm_compute; lia.
      * destruct (Py.gt x 50) eqn:Ex50; [| vm_compute; lia].
        exfalso. apply (Qlt_not_le _ _ (proj1 Gx50 eq_refl)).
        apply Qle_trans with qy; [exact Hle | exact (proj1 Ly50 eq_refl)].
Qed.

Lemma severity_monotone_witness :
  (tier_rank (_get_severity_details (Some (Py.NInt 60)))
   <= tier_rank (_get_severity_details
                   (Some (Py.NFloat (S754_finite false 301 (-1))))))%nat.
Proof.
  apply (severity_monotone (Py.NInt 60) (Py.NFloat (S754_finite false 301 (-1)))
           (inject_Z 60) _ eq_refl eq_refl).
  vm_compute. discriminate.
Defined.

(** ** What the rendering looks at and what it builds *)

Section Blocks.

Variable repr_other : value -> string.

(** X15.  Of the root causes only the first entry is read: two payloads
    whose root causes start with the same entry get the same root-cause
    field and the same account line, whatever follows that entry. *)
Theorem only_first_root_cause : forall anomaly anomaly' first rest rest',
  root_causes_of anomaly = PyList (first :: rest) ->
  root_causes_of anomaly' = PyList (first :: rest') ->
  root_cause_fields repr_other anomaly = root_cause_fields repr_other anomaly'
  /\ _get_account_info repr_other anomaly
     = _get_account_info repr_other anomaly'.
Proof.
  intros anomaly anomaly' first rest rest' H H'.
  unfold root_cause_fields, _get_account_info.
  fold (root_causes_of anomaly). fold (root_causes_of anomaly').
  rewrite H, H'. split; reflexivity.
Qed.

Lemma root_cause_fields_short : forall anomaly,
  root_cause_fields repr_other anomaly = []
  \/ exists text, root_cause_fields repr_other anomaly = [mrkdwn text].
Proof.
  intro anomaly. unfold root_cause_fields.
  destruct (Py.or_ (_get_any anomaly causes_paths (PyList [])) (PyList []))
    as [| b | z | f | s | [| first rest] | o]; try (left; reflexivity).
  match goal with
  | |- context [match ?parts with [] => [] | _ :: _ => _ end] =>
      destruct parts; [left; reflexivity | right; eexists; reflexivity]
  end.
Qed.


(** The blocks of an anomaly, when they are built. *)
Lemma blocks_form : forall anomaly blocks,
  _build_blocks_for_anomaly repr_other anomaly = inr blocks ->
  exists section fields,
    blocks
    = [ header_block
          (header_title
             (_get_severity_details
                (Py.as_number (_get_any anomaly total_paths PyNone))));
        PyDict section;
        actions_block
          (_get_any anomaly [["anomalyDetailsLink"]; ["AnomalyDetailsLink"]]
             (PyStr default_console_url));
        context_block ]
    /\ Py.lookup section "type" = Some (PyStr "section")
    /\ Py.lookup section "fields" = Some (PyList fields)
    /\ (2 <= List.length fields <= 5)%nat
    /\ Forall is_mrkdwn fields.
Proof.
  intros anomaly blocks H. unfold _build_blocks_for_anomaly in H.
  destruct (Py.as_number (_get_any anomaly total_paths PyNone)) as [x |] eqn:Ex;
    [destruct (Py.format_comma_2f x) as [e | t]; [discriminate H |] |];
    (destruct (Py.as_number (_get_any anomaly pct_paths PyNone)) as [y |];
     [destruct (Py.format_comma_2f y) as [e' | u]; [discriminate H |] |]);
    unfold bind, ret in H;
    destruct (_get_account_info repr_other anomaly) as [acct_id acct_name];
    injection H as <-;
    eexists; eexists; (split; [reflexivity |]);
    (split; [reflexivity |]);
    (split; [match goal with
             | |- context [if ?c then [("text", _)] else []] =>
                 destruct c; reflexivity
             end |]);
    destruct (root_cause_fields_short anomaly) as [-> | [text ->]];
    repeat match goal with
      | |- context [if ?c then [mrkdwn _] else []] => destruct c
      end;
    (split; [simpl; lia | repeat constructor; eexists; reflexivity]).
Qed.

(** X5.  The blocks built for an anomaly are always four, a header, a
    section, the actions and the context, in this order; the section has
    a grid of two to five markdown fields; the button always has a URL
    that is not null. *)
Theorem blocks_shape : forall anomaly blocks,
  _build_blocks_for_anomaly repr_other anomaly = inr blocks ->
  exists title section fields console_url,
    blocks = [header_block title; PyDict section; actions_block console_url;
              context_block]
    /\ Py.lookup section "type" = Some (PyStr "section")
    /\ Py.lookup section "fields" = Some (PyList fields)
    /\ (2 <= List.length fields <= 5)%nat
    /\ Forall is_mrkdwn fields
    /\ console_url <> PyNone.
Proof.
  intros anomaly blocks H.
  destruct (blocks_form anomaly blocks H) as [section [fields [-> [Ht [Hf [Hn Hm]]]]]].
  do 4 eexists. split; [reflexivity |].
  repeat split; try eassumption; try apply Hn.
  apply get_any_not_none. discriminate.
Qed.

(** X6.  In the payload of an anomaly the colour of the attachment and
    the icon and label of the header belong to one tier, the tier of the
    total impact, which is UNKNOWN exactly when the total impact is not a
    number. *)
Theorem color_matches_header : forall anomaly raw payload,
  _build_payload repr_other anomaly raw = inr payload ->
  Py.truthy anomaly = true ->
  Py.truthy (_get_any anomaly id_paths PyNone) = true ->
  let tier :=
    _get_severity_details (Py.as_number (_get_any anomaly total_paths PyNone)) in
  (exists section console_url,
     payload
     = PyDict [("attachments",
                PyList [PyDict [("color", PyStr (color tier));
                                ("blocks",
                                 PyList [header_block (header_title tier);
                                         section; actions_block console_url;
                                         context_block])]])])
  /\ In tier [UNKNOWN; HIGH; MEDIUM; LOW]
  /\ (tier = UNKNOWN
      <-> Py.as_number (_get_any anomaly total_paths PyNone) = None).
Proof.
  intros anomaly raw payload H Ha Hid tier.
  unfold _build_payload in H. rewrite Ha, Hid in H. simpl in H.
  destruct (_build_blocks_for_anomaly repr_other anomaly) as [e | blocks] eqn:E;
    [discriminate H |].
  unfold bind, ret in H. injection H as <-.
  destruct (blocks_form anomaly blocks E) as [section [fields [-> _]]].
  split; [do 2 eexists; reflexivity |].
  unfold tier, _get_severity_details.
  destruct (Py.as_number (_get_any anomaly total_paths PyNone)) as [x |].
  - destruct (Py.gt x 100); [| destruct (Py.gt x 50)];
      (split; [simpl; tauto | split; discriminate]).
  - split; [simpl; tauto | split; reflexivity].
Qed.


End Blocks.

Lemma only_first_root_cause_witness :
  let first := PyDict [("Service", PyStr "EC2"); ("LinkedAccount", PyStr "111")] in
  let anomaly := PyDict [("RootCauses", PyList [first; PyDict [("Service", PyStr "S3")]])] in
  let anomaly' := PyDict [("rootCauses", PyList [first])] in
  root_cause_fields Repr.repr anomaly = root_cause_fields Repr.repr anomaly'
  /\ _get_account_info Repr.repr anomaly = _get_account_info Repr.repr anomaly'.
Proof.
  intros first anomaly anomaly'.
  apply (only_first_root_cause Repr.repr anomaly anomaly' first
           [PyDict [("Service", PyStr "S3")]] []);
    reflexivity.
Defined.

Lemma blocks_shape_witness :
  exists blocks,
    _build_blocks_for_anomaly Repr.repr (encode CamelCase sample_anomaly)
    = inr blocks
    /\ exists title section fields console_url,
         blocks = [header_block title; PyDict section;
                   actions_block console_url; context_block]
         /\ Py.lookup section "type" = Some (PyStr "section")
         /\ Py.lookup section "fields" = Some (PyList fields)
         /\ (2 <= List.length fields <= 5)%nat
         /\ Forall is_mrkdwn fields
         /\ console_url <> PyNone.
Proof.
  eexists. split; [vm_compute; reflexivity |].
  apply (blocks_shape Repr.repr (encode CamelCase sample_anomaly)).
  vm_compute. reflexivity.
Defined.

Lemma color_matches_header_witness :
  exists section console_url,
    _build_payload Repr.repr (encode TitleCase sample_anomaly) (PyStr sample_title)
    = inr (PyDict [("attachments",
                    PyList [PyDict [("color", PyStr (color HIGH));
                                    ("blocks",
                                     PyList [header_block (header_title HIGH);
                                             section; actions_block console_url;
                                             context_block])]])]).
Proof.
  destruct (_build_payload Repr.repr (encode TitleCase sample_anomaly)
              (PyStr sample_title)) as [e | payload] eqn:E;
    [vm_compute in E; discriminate E |].
  destruct (color_matches_header Repr.repr (encode TitleCase sample_anomaly)
              (PyStr sample_title) payload E eq_refl eq_refl)
    as [[section [console_url ->]] _].
  exists section, console_url. reflexivity.
Defined.


(** ** The loop over the records *)

Section Records.

Variable repr_other : value -> string.
Variable json_loads : string -> raises value.
Variable urlopen : list request -> request -> response.

(** X12.  What the [try] block leaves in [anomaly_payload] is null or an
    object with a truthy identifier, and that object is the decoded
    message or the object under its ["detail"]; a message that is not text
    always leaves null. *)
Theorem anomaly_payload_invariant : forall msg_str,
  (parse_anomaly json_loads msg_str = PyNone
   \/ exists text top d,
        msg_str = PyStr text
        /\ json_loads text = inr (PyDict top)
        /\ parse_anomaly json_loads msg_str = PyDict d
        /\ usable_identifier d = true
        /\ (d = top \/ Py.lookup top "detail" = Some (PyDict d)))
  /\ match msg_str with
     | PyStr _ => True
     | _ => parse_anomaly json_loads msg_str = PyNone
     end.
Proof.
  intro msg_str.
  destruct msg_str as [| b | z | f | text | l | o];
    try (split; [left |]; reflexivity).
  split; [| exact I].
  rewrite parse_anomaly_selected. unfold selected_root.
  destruct (json_loads text) as [e | [| b | z | f | s | l | top]] eqn:E;
    try (left; reflexivity).
  destruct (usable_identifier top) eqn:U.
  - right. exists text, top, top. repeat split; try assumption. now left.
  - destruct (Py.lookup top "detail") as [[| b | z | f | s | l | inner] |] eqn:D;
      try (left; reflexivity).
    destruct (usable_identifier inner) eqn:V; [| left; reflexivity].
    right. exists text, top, inner. repeat split; try assumption. now right.
Qed.


(** X10.  The message of a record: the empty text when the record has no
    [Sns], a null or otherwise falsy [Sns], or an [Sns] without
    [Message]; the value under [Message] when there is one, null
    included.  A record that is not an object, or whose truthy [Sns] is
    not an object, raises [AttributeError]. *)
Theorem record_message : forall r,
  (Py.truthy (value_at r "Sns") = false ->
     record_payload repr_other json_loads (PyDict r)
     = render_message repr_other json_loads (PyStr ""))
  /\ (forall sns, value_at r "Sns" = PyDict sns -> sns <> [] ->
        record_payload repr_other json_loads (PyDict r)
        = render_message repr_other json_loads
            (match Py.lookup sns "Message" with
             | Some msg_str => msg_str
             | None => PyStr ""
             end))
  /\ (Py.truthy (value_at r "Sns") = true ->
      Py.is_dict (value_at r "Sns") = false ->
        record_payload repr_other json_loads (PyDict r) = inl AttributeError)
  /\ (forall record, Py.is_dict record = false ->
        record_payload repr_other json_loads record = inl AttributeError).
Proof.
  intro r. unfold record_payload. rewrite get_dict. unfold bind, Py.or_.
  split; [| split; [| split]].
  - intros ->. reflexivity.
  - intros sns -> Hs. destruct sns; [congruence | reflexivity].
  - intros -> Hd. destruct (value_at r "Sns"); try discriminate Hd; reflexivity.
  - intros record Hr. destruct record; try discriminate Hr; reflexivity.
Qed.

(** X13.  The handler accepts an object on a truthy identifier under
    either spelling, but [_build_payload] reads the first spelling that
    is not null: an object whose [AnomalyId] is falsy without being null
    and whose [anomalyId] is truthy is selected and then rendered as the
    fallback. *)
Theorem falsy_title_identifier_shadows : forall text d a,
  json_loads text = inr (PyDict d) ->
  Py.lookup d "AnomalyId" = Some a ->
  a <> PyNone ->
  Py.truthy a = false ->
  Py.truthy (value_at d "anomalyId") = true ->
  parse_anomaly json_loads (PyStr text) = PyDict d
  /\ render_message repr_other json_loads (PyStr text)
     = inr (fallback_payload repr_other (PyStr text)).
Proof.
  intros text d a Hd Ha Hn Hf Hc.
  assert (Hsel : parse_anomaly json_loads (PyStr text) = PyDict d).
  { rewrite parse_anomaly_selected, Hd. simpl. unfold usable_identifier.
    rewrite Hc. now rewrite orb_true_r. }
  split; [exact Hsel |].
  unfold render_message. rewrite Hsel. unfold _build_payload.
  assert (Hid : _get_any (PyDict d) id_paths PyNone = a).
  { unfold id_paths, _get_any, _safe_get. simpl. rewrite Ha.
    destruct a; simpl; congruence. }
  rewrite Hid, Hf, andb_false_r. reflexivity.
Qed.

Let run := process_records repr_other json_loads urlopen.

(** What a run of the loop does to the process. *)
Lemma process_records_frame : forall webhook_url items w,
  exists new_posts new_err,
    snd (run webhook_url items w)
    = {| environ := environ w; stdout := stdout w;
         stderr := stderr w +++ new_err;
         posts := posts w +++ new_posts |}
    /\ (List.length new_err <= 1)%nat
    /\ (List.length new_posts <= List.length items)%nat
    /\ Forall (fun req => exists payload,
                 req = slack_request webhook_url payload) new_posts
    /\ (forall u, fst (run webhook_url items w) = inr u ->
          new_err = [] /\ List.length new_posts = List.length items).
Proof.
  intros webhook_url items. induction items as [| record items IH]; intro w.
  - exists [], []. simpl. rewrite !app_nil_r.
    repeat split; try constructor; destruct w; reflexivity.
  - unfold run in *. simpl. unfold pbind at 1.
    unfold process_record, pbind, lift.
    destruct (record_payload repr_other json_loads record) as [e | payload].
    + exists [], []. simpl. rewrite !app_nil_r.
      repeat split; try constructor; try lia; try discriminate.
      destruct w; reflexivity.
    + unfold _post_to_slack.
      destruct (urlopen (posts w) (slack_request webhook_url payload))
        as [| code reason | reason | name | msg].
      * destruct (IH (record_post (slack_request webhook_url payload) w))
          as [new_posts [new_err [Hw [He [Hp [Hall Hok]]]]]].
        exists (slack_request webhook_url payload :: new_posts), new_err.
        rewrite Hw. simpl. rewrite <- app_assoc. simpl.
        repeat split; try assumption; try lia.
        -- constructor; [eexists; reflexivity | exact Hall].
        -- now apply (Hok u).
        -- f_equal. now apply (Hok u).
      * eexists [_], [_]. simpl.
        repeat split; try lia; try discriminate.
        constructor; [eexists; reflexivity | constructor].
      * eexists [_], [_]. simpl.
        repeat split; try lia; try discriminate.
        constructor; [eexists; reflexivity | constructor].
      * eexists [_], []. simpl. rewrite app_nil_r.
        repeat split; try lia; try discriminate.
        constructor; [eexists; reflexivity | constructor].
      * exists [], []. simpl. rewrite !app_nil_r.
        repeat split; try constructor; try lia; try discriminate.
        destruct w; reflexivity.
Qed.

(** X8.  Whatever the event, the decoder and the network, an invocation
    leaves the environment as it was, adds the event to standard output,
    adds at most one line to standard error, and only adds requests; every
    request it makes is a POST as [_post_to_slack] builds them, to the
    configured URL; and when it returns, it returns the status whose count
    is the number of requests it made, with nothing on standard error. *)
Theorem handler_frame : forall event context w,
  exists new_posts new_err,
    snd (handler repr_other json_loads urlopen event context w)
    = {| environ := environ w; stdout := stdout w +++ [event];
         stderr := stderr w +++ new_err;
         posts := posts w +++ new_posts |}
    /\ (List.length new_err <= 1)%nat
    /\ Forall (slack_post w) new_posts
    /\ (forall v,
          fst (handler repr_other json_loads urlopen event context w) = inr v ->
          v = status_ok (List.length new_posts) /\ new_err = []).
Proof.
  intros event context w.
  unfold handler, pbind, effect, raise, lift, pure. simpl.
  destruct (environ w "SLACK_WEBHOOK_URL") as [[| a u] |] eqn:Henv.
  - eexists [], [_]. simpl. rewrite app_nil_r.
    repeat split; try (simpl; lia); try discriminate; try constructor.
  - destruct (Py.get event "Records") as [e | found].
    + exists [], []. simpl. rewrite !app_nil_r.
      repeat split; try (simpl; lia); try discriminate; try constructor.
    + destruct (Py.or_ found (PyList [])) as [| b | z | f | s | items | o];
        try (exists [], []; simpl; rewrite !app_nil_r;
             repeat split; try (simpl; lia); try discriminate;
             constructor).
      fold run.
      destruct (process_records_frame (String a u) items (print_event event w))
        as [new_posts [new_err [Hw [He [Hp [Hall Hok]]]]]].
      exists new_posts, new_err.
      destruct (run (String a u) items (print_event event w)) as [[e | t] w'];
        simpl in *; subst w'.
      * split; [reflexivity |]. split; [exact He |]. split.
        -- eapply Forall_impl; [| exact Hall].
           intros req [payload ->]. unfold slack_post. simpl. now rewrite Henv.
        -- intros v Hv. discriminate Hv.
      * destruct (Hok t eq_refl) as [-> Hlen].
        split; [reflexivity |]. split; [exact He |]. split.
        -- eapply Forall_impl; [| exact Hall].
           intros req [payload ->]. unfold slack_post. simpl. now rewrite Henv.
        -- intros v Hv. injection Hv as <-.
           split; [now rewrite Hlen | reflexivity].
  - eexists [], [_]. simpl. rewrite app_nil_r.
    repeat split; try (simpl; lia); try discriminate; try constructor.
Qed.

(** X9.  With the webhook configured: an event that is not an object
    raises [AttributeError]; [Records] that is null or falsy in any other
    way counts as no records; [Records] that is truthy and not a list
    raises [AttributeError] or [TypeError]; in each case after the print
    of the event and with no request made. *)
Theorem records_not_a_list : forall event context w webhook_url,
  environ w "SLACK_WEBHOOK_URL" = Some webhook_url ->
  webhook_url <> "" ->
  (Py.is_dict event = false ->
     handler repr_other json_loads urlopen event context w
     = (inl AttributeError, print_event event w))
  /\ (forall found,
        Py.get event "Records" = inr found -> Py.truthy found = false ->
        handler repr_other json_loads urlopen event context w
        = (inr (status_ok 0), print_event event w))
  /\ (forall found,
        Py.get event "Records" = inr found ->
        Py.truthy found = true -> Py.is_list found = false ->
        exists e,
          (e = AttributeError \/ e = TypeError)
          /\ handler repr_other json_loads urlopen event context w
             = (inl e, print_event event w)).
Proof.
  intros event context w webhook_url Henv Hurl.
  unfold handler, pbind, effect, raise, lift, pure. simpl. rewrite Henv.
  destruct webhook_url as [| a u]; [congruence |].
  split; [| split].
  - intro H. destruct event; try discriminate H; reflexivity.
  - intros found -> Hf. unfold Py.or_. rewrite Hf. reflexivity.
  - intros found -> Ht Hl. unfold Py.or_. rewrite Ht.
    destruct found; try discriminate Hl;
      eexists; (split; [| reflexivity]); tauto.
Qed.

End Records.

Section RecordErrors.

Variable repr_other : value -> string.
Variable json_loads : string -> raises value.
Variable urlopen : list request -> request -> response.

(** X16.  With the webhook configured, a record that cannot be turned
    into a payload (it is not an object, its [Sns] is not one, or its
    rendering raises) ends the invocation with that exception: the
    records before it have been posted, nothing is posted for it or after
    it, and nothing is printed on standard error. *)
Theorem record_error_aborts :
  forall event context w webhook_url found before record rest payloads e,
  environ w "SLACK_WEBHOOK_URL" = Some webhook_url ->
  webhook_url <> "" ->
  Py.get event "Records" = inr found ->
  Py.or_ found (PyList []) = PyList (before +++ record :: rest) ->
  Forall2 (fun record payload =>
             record_payload repr_other json_loads record = inr payload)
    before payloads ->
  (forall k p,
     nth_error payloads k = Some p ->
     urlopen (posts w +++ map (slack_request webhook_url) (firstn k payloads))
       (slack_request webhook_url p) = Delivered) ->
  record_payload repr_other json_loads record = inl e ->
  handler repr_other json_loads urlopen event context w
  = (inl e,
     {| environ := environ w; stdout := stdout w +++ [event];
        stderr := stderr w;
        posts := posts w +++ map (slack_request webhook_url) payloads |}).
Proof.
  intros event context w webhook_url found before record rest payloads e
         Henv Hurl Hget Hor Hall Hnet He.
  rewrite (handler_runs_records repr_other json_loads urlopen
             _ _ _ _ _ _ Henv Hurl Hget Hor).
  assert (Hrun : forall w0,
    (forall k p,
       nth_error payloads k = Some p ->
       urlopen (posts w0 +++ map (slack_request webhook_url) (firstn k payloads))
         (slack_request webhook_url p) = Delivered) ->
    process_records repr_other json_loads urlopen webhook_url
      (before +++ record :: rest) w0
    = (inl e,
       {| environ := environ w0; stdout := stdout w0; stderr := stderr w0;
          posts := posts w0 +++ map (slack_request webhook_url) payloads |})).
  { clear Hnet Hor. induction Hall as [| r p before payloads Hp _ IH];
      intros w0 Hnet0.
    - simpl. unfold pbind at 1. unfold process_record, pbind, lift.
      rewrite He. rewrite app_nil_r. now destruct w0.
    - simpl. unfold pbind at 1. unfold process_record, pbind, lift.
      rewrite Hp. unfold _post_to_slack.
      pose proof (Hnet0 O p eq_refl) as H0. simpl in H0.
      rewrite app_nil_r in H0. rewrite H0.
      rewrite IH.
      + simpl. now rewrite <- app_assoc.
      + intros k q Hk. simpl. rewrite <- app_assoc. simpl.
        apply (Hnet0 (S k) q). exact Hk. }
  rewrite (Hrun (print_event event w) Hnet). reflexivity.
Qed.

End RecordErrors.

(** One record delivered, then a record that is a number. *)
Lemma record_error_aborts_witness :
  let w := fresh_world (Some sample_hook) in
  let event := PyDict [("Records", PyList [sns_record "first"; PyInt 7;
                                          sns_record "third"])] in
  handler Repr.repr Json.loads always_delivered event PyNone w
  = (inl AttributeError,
     {| environ := environ w; stdout := [event]; stderr := [];
        posts := [slack_request sample_hook
                    (fallback_payload Repr.repr (PyStr "first"))] |}).
Proof.
  intros w event.
  apply (record_error_aborts Repr.repr Json.loads always_delivered
           event PyNone w sample_hook
           (PyList [sns_record "first"; PyInt 7; sns_record "third"])
           [sns_record "first"] (PyInt 7) [sns_record "third"]
           [fallback_payload Repr.repr (PyStr "first")] AttributeError);
    try reflexivity.
  - discriminate.
  - repeat constructor.
Defined.

Lemma anomaly_payload_invariant_witness :
  exists d,
    parse_anomaly Json.loads (PyStr (sq "{'detail': {'anomalyId': 'a1'}}"))
    = PyDict d
    /\ usable_identifier d = true.
Proof.
  destruct (proj1 (anomaly_payload_invariant Json.loads
                     (PyStr (sq "{'detail': {'anomalyId': 'a1'}}"))))
    as [H | [text [top [d [_ [_ [H [U _]]]]]]]].
  - vm_compute in H. discriminate H.
  - exists d. split; assumption.
Defined.


(** A record without [Sns] carries the empty message. *)
Lemma record_message_witness :
  record_payload Repr.repr Json.loads (PyDict [("EventSource", PyStr "aws:sns")])
  = render_message Repr.repr Json.loads (PyStr "").
Proof.
  apply (proj1 (record_message Repr.repr Json.loads
                  [("EventSource", PyStr "aws:sns")])).
  reflexivity.
Defined.

Lemma falsy_title_identifier_shadows_witness :
  let text := sq "{'AnomalyId': '', 'anomalyId': 'a1'}" in
  parse_anomaly Json.loads (PyStr text)
  = PyDict [("AnomalyId", PyStr ""); ("anomalyId", PyStr "a1")]
  /\ render_message Repr.repr Json.loads (PyStr text)
     = inr (fallback_payload Repr.repr (PyStr text)).
Proof.
  intro text.
  apply (falsy_title_identifier_shadows Repr.repr Json.loads text
           [("AnomalyId", PyStr ""); ("anomalyId", PyStr "a1")] (PyStr ""));
    try reflexivity.
  discriminate.
Defined.

Lemma handler_frame_witness :
  let w := fresh_world (Some sample_hook) in
  let event := PyDict [("Records", PyList [sns_record "first"])] in
  exists new_posts new_err,
    snd (handler Repr.repr Json.loads
           (fails_from 0 (UrlFailure "timed out")) event PyNone w)
    = {| environ := environ w; stdout := [event];
         stderr := new_err; posts := new_posts |}
    /\ (List.length new_err <= 1)%nat
    /\ Forall (slack_post w) new_posts.
Proof.
  intros w event.
  destruct (handler_frame Repr.repr Json.loads
              (fails_from 0 (UrlFailure "timed out")) event PyNone w)
    as [new_posts [new_err [Hw [He [Hall _]]]]].
  exists new_posts, new_err. repeat split; assumption.
Defined.

Lemma records_not_a_list_witness :
  let w := fresh_world (Some sample_hook) in
  let event := PyDict [("Records", PyNone)] in
  handler Repr.repr Json.loads always_delivered event PyNone w
  = (inr (status_ok 0), print_event event w).
Proof.
  intros w event.
  apply (proj1 (proj2 (records_not_a_list Repr.repr Json.loads always_delivered
                         event PyNone w sample_hook eq_refl
                         ltac:(discriminate)))
           PyNone);
    reflexivity.
Defined.
